(** * Fishery catch dashboard: generator, filter and aggregation

    A shallow embedding of [streamlit_app.py].  The script builds a table
    of synthetic catch records, narrows it to a date interval and a set of
    sites, and shows grouped sums of the catch weight.

    Conventions of the embedding:
    - a [datetime.date] is its proleptic Gregorian ordinal
      ([date.toordinal()]), a [Z]; comparing dates is comparing ordinals;
    - [Catch_Weight_kg] is a number with two decimals (the generator rounds
      with [.round(2)]); it is held as an integer count of hundredths of a
      kilogram, and [Series_sum] and [Series_mean] are exact.  The code
      adds and divides in binary64, so what is proved of these sums are
      bounds and inequalities, which rounding keeps; equalities between
      sums added in different orders are stated for the arithmetic they
      hold in, beside the binary64 sums where they fail;
    - a DataFrame is the list of its rows in index order; a Series is the
      list of its values;
    - numpy's global random state is threaded explicitly through a small
      state monad. *)

From Stdlib Require Import ZArith List String Ascii Bool Lia.
From Stdlib Require Import Permutation Sorted QArith PrimFloat.
Import ListNotations.

Local Open Scope string_scope.
Local Open Scope list_scope.
Local Open Scope Z_scope.

(** ** Dates *)

Definition date := Z.

(** [datetime._is_leap], [_days_before_year], [_days_before_month] and
    [_ymd2ord] of the Python standard library. *)
Definition is_leap (y : Z) : bool :=
  (y mod 4 =? 0) && (negb (y mod 100 =? 0) || (y mod 400 =? 0)).

Definition days_before_year (y : Z) : Z :=
  let p := y - 1 in p * 365 + p / 4 - p / 100 + p / 400.

Definition DAYS_BEFORE_MONTH : list Z :=
  [0; 31; 59; 90; 120; 151; 181; 212; 243; 273; 304; 334].

Definition days_before_month (y m : Z) : Z :=
  nth (Z.to_nat (m - 1)) DAYS_BEFORE_MONTH 0
  + (if (2 <? m) && is_leap y then 1 else 0).

Definition ymd2ord (y m d : Z) : date :=
  days_before_year y + days_before_month y m + d.

(** [date + timedelta(days=k)] *)
Definition add_days (d : date) (k : Z) : date := d + k.

(** ** Catch records and tables *)

Record CatchRecord := mkRecord {
  Date : date;
  Site : string;
  Species : string;
  Catch_Weight_kg : Z;   (* hundredths of a kilogram *)
  Gear_Type : string
}.

Definition DataFrame := list CatchRecord.

(** [pd.DataFrame(data)] for the five columns of the script: row [i] holds
    the [i]-th value of every column.  (pandas raises when the columns
    differ in length; the generator always passes equal lengths.) *)
Fixpoint make_frame (dates : list date) (sites species : list string)
         (weights : list Z) (gear : list string) : DataFrame :=
  match dates, sites, species, weights, gear with
  | d :: dates', s :: sites', sp :: species', w :: weights', g :: gear' =>
      mkRecord d s sp w g :: make_frame dates' sites' species' weights' gear'
  | _, _, _, _, _ => []
  end.

(** ** Sorting ([sort_values]) *)

Section Sorting.
Context {A : Type}.
Variable leb : A -> A -> bool.

Fixpoint insert_sorted (x : A) (l : list A) : list A :=
  match l with
  | [] => [x]
  | y :: l' => if leb x y then x :: l else y :: insert_sorted x l'
  end.

Definition sort_by (l : list A) : list A := fold_right insert_sorted [] l.

(** The order a boolean comparison stands for *)
Definition leb_rel (a b : A) : Prop := leb a b = true.
End Sorting.

(** [df.sort_values(by='Date').reset_index(drop=True)].  pandas leaves the
    order of rows with equal dates unspecified (its default sort is not
    stable); this model keeps them in their original order. *)
Definition date_leb (a b : CatchRecord) : bool := Date a <=? Date b.

Definition sort_values_by_Date (df : DataFrame) : DataFrame :=
  sort_by date_leb df.

(** ** The random source *)

(** [np.round(x, 2)] on a non-negative rational [num / den] of hundredths:
    the nearest integer, ties going to the even one. *)
Definition round_half_even (num den : Z) : Z :=
  let q := num / den in
  let r := num mod den in
  if 2 * r <? den then q
  else if den <? 2 * r then q + 1
  else if Z.even q then q else q + 1.

Section Generator.
(** The state of numpy's generator and one raw draw from it. *)
Variable RandomState : Type.
Variable next_raw : RandomState -> Z * RandomState.

Definition Rand (A : Type) : Type := RandomState -> A * RandomState.

Definition ret {A} (a : A) : Rand A := fun s => (a, s).

Definition bind {A B} (m : Rand A) (f : A -> Rand B) : Rand B :=
  fun s => let (a, s') := m s in f a s'.

Notation "x <- m ;; k" := (bind m (fun x => k))
  (at level 61, m at next level, right associativity).

(** [[ m for _ in range(n) ]] and the vectorised numpy draws of size [n] *)
Fixpoint replicateM {A} (n : nat) (m : Rand A) : Rand (list A) :=
  match n with
  | O => ret []
  | S n' => x <- m ;; xs <- replicateM n' m ;; ret (x :: xs)
  end.

(** [np.random.randint(low, high)]: an integer of [[low, high)] *)
Definition randint (low high : Z) : Rand Z :=
  fun s => let (r, s') := next_raw s in (low + r mod (high - low), s').

(** [np.random.choice(xs)]: an element of [xs], picked by index *)
Definition choice (xs : list string) : Rand string :=
  fun s => let (r, s') := next_raw s in
           (nth (Z.to_nat (r mod Z.of_nat (List.length xs))) xs "", s').

(** [np.random.random_sample()] is [k / 2^53] for an integer
    [0 <= k < 2^53]; this is [k]. *)
Definition random_sample53 : Rand Z :=
  fun s => let (r, s') := next_raw s in (r mod 2 ^ 53, s').

(** [np.random.uniform(low, high).round(2)], in hundredths:
    [low + (high - low) * k / 2^53], times 100, rounded. *)
Definition uniform_round2 (low high : Z) : Rand Z :=
  k <- random_sample53 ;;
  ret (round_half_even (100 * low * 2 ^ 53 + 100 * (high - low) * k) (2 ^ 53)).

Definition start_date : date := ymd2ord 2024 1 1.

(** [365*1.2] is [438.0] in binary64, and [randint] takes it as 438. *)
Definition window_days : Z := 438.

Definition sites : list string :=
  ["Fumba Bay"; "Nungwi Reef"; "Kizimkazi Channel"; "Mnemba Atoll";
   "Paje Kelp Beds"].
Definition species : list string :=
  ["Tuna"; "Snapper"; "Grouper"; "Mackerel"; "Sardines"; "Octopus";
   "Lobster"].
Definition gear : list string :=
  ["Longline"; "Handline"; "Net"; "Trap"; "Spear"].

(** One element of [dates]:
    [start_date + timedelta(days=np.random.randint(0, 365*1.2))] *)
Definition draw_date : Rand date :=
  k <- randint 0 window_days ;; ret (add_days start_date k).

Definition generate_sample_data (num_records : nat) : Rand DataFrame :=
  dates <- replicateM num_records draw_date ;;
  site_col <- replicateM num_records (choice sites) ;;
  species_col <- replicateM num_records (choice species) ;;
  weight_col <- replicateM num_records (uniform_round2 5 150) ;;
  gear_col <- replicateM num_records (choice gear) ;;
  let df := make_frame dates site_col species_col weight_col gear_col in
  ret (sort_values_by_Date df).
End Generator.

Arguments ret {RandomState A} _ _.
Arguments bind {RandomState A B} _ _ _.
Arguments replicateM {RandomState A} _ _ _.

(** ** The sidebar inputs *)

Definition column {A : Type} (f : CatchRecord -> A) (df : DataFrame) : list A :=
  map f df.

(** [Series.min()] and [Series.max()]; [None] stands for the NaN that
    pandas returns on an empty Series. *)
Definition Series_min (col : list Z) : option Z :=
  match col with
  | [] => None
  | x :: col' => Some (fold_left Z.min col' x)
  end.

Definition Series_max (col : list Z) : option Z :=
  match col with
  | [] => None
  | x :: col' => Some (fold_left Z.max col' x)
  end.

(** Lines 60-64: the value of the date widget is a tuple of zero, one or
    two dates; it is unpacked only when it has two. *)
Definition resolve_date_range (min_date max_date : date)
           (date_range : list date) : date * date :=
  let start_date := min_date in
  let end_date := max_date in
  if Nat.eqb (List.length date_range) 2
  then (nth 0 date_range start_date, nth 1 date_range end_date)
  else (start_date, end_date).

(** ** The filter: a boolean mask over the table *)

Definition Series_ge (col : list date) (d : date) : list bool :=
  map (fun x => d <=? x) col.

Definition Series_le (col : list date) (d : date) : list bool :=
  map (fun x => x <=? d) col.

Definition isin (col : list string) (values : list string) : list bool :=
  map (fun x => existsb (String.eqb x) values) col.

(** [a & b] on two boolean Series *)
Fixpoint mask_and (a b : list bool) : list bool :=
  match a, b with
  | x :: a', y :: b' => (x && y) :: mask_and a' b'
  | _, _ => []
  end.

(** [df[mask]] *)
Fixpoint boolean_index (df : DataFrame) (mask : list bool) : DataFrame :=
  match df, mask with
  | r :: df', b :: mask' =>
      if b then r :: boolean_index df' mask' else boolean_index df' mask'
  | _, _ => []
  end.

Definition filtered_df (df : DataFrame) (start_date end_date : date)
           (selected_sites : list string) : DataFrame :=
  boolean_index df
    (mask_and
       (mask_and (Series_ge (column Date df) start_date)
                 (Series_le (column Date df) end_date))
       (isin (column Site df) selected_sites)).

(** The test that the three masks of [filtered_df] make on one row *)
Definition keep_row (start_date end_date : date) (selected_sites : list string)
           (r : CatchRecord) : bool :=
  (start_date <=? Date r) && (Date r <=? end_date)
  && existsb (String.eqb (Site r)) selected_sites.

(** ** Aggregation *)

(** [Series.sum()] in exact arithmetic on the hundredths; the code's sum
    is the binary64 number that rounding leaves of it. *)
Definition Series_sum (col : list Z) : Z := fold_right Z.add 0 col.

(** [Series.mean()]: the sum divided by the count, NaN ([None]) on an
    empty Series.  The value is in hundredths of a kilogram, as an exact
    fraction; the code's mean is the binary64 number that rounding
    leaves of it. *)
Definition Series_mean (col : list Z) : option Q :=
  match col with
  | [] => None
  | _ :: _ => Some (Qmake (Series_sum col) (Pos.of_nat (List.length col)))
  end.

Definition total_catch (filtered : DataFrame) : Z :=
  Series_sum (column Catch_Weight_kg filtered).

Definition num_records_filtered (filtered : DataFrame) : nat :=
  List.length filtered.

Definition avg_catch_per_record (filtered : DataFrame) : option Q :=
  Series_mean (column Catch_Weight_kg filtered).

Section GroupBy.
Context {K : Type}.
Variable key_eqb : K -> K -> bool.
Variable key_leb : K -> K -> bool.
Variable key : CatchRecord -> K.

(** The distinct values of a column, in order of first appearance *)
Fixpoint unique (ks : list K) : list K :=
  match ks with
  | [] => []
  | k :: ks' => k :: filter (fun k' => negb (key_eqb k' k)) (unique ks')
  end.

(** The group keys: the distinct keys, sorted (groupby's [sort=True]) *)
Definition group_keys (df : DataFrame) : list K :=
  sort_by key_leb (unique (column key df)).

Definition group (df : DataFrame) (k : K) : DataFrame :=
  filter (fun r => key_eqb (key r) k) df.

(** [df.groupby(key)['Catch_Weight_kg'].sum().reset_index()] *)
Definition groupby_sum (df : DataFrame) : list (K * Z) :=
  map (fun k => (k, Series_sum (column Catch_Weight_kg (group df k))))
      (group_keys df).
End GroupBy.

(** [.sort_values(by='Catch_Weight_kg', ascending=False)] *)
Definition weight_geb {K : Type} (a b : K * Z) : bool := snd b <=? snd a.

Definition sort_values_by_weight_desc {K : Type} (t : list (K * Z))
  : list (K * Z) :=
  sort_by weight_geb t.

Definition pair_eqb (a b : string * string) : bool :=
  String.eqb (fst a) (fst b) && String.eqb (snd a) (snd b).

Definition pair_leb (a b : string * string) : bool :=
  if String.eqb (fst a) (fst b) then String.leb (snd a) (snd b)
  else String.leb (fst a) (fst b).

Definition time_series_df (filtered : DataFrame) : list (date * Z) :=
  groupby_sum Z.eqb Z.leb Date filtered.

Definition site_catch_df (filtered : DataFrame) : list (string * Z) :=
  sort_values_by_weight_desc (groupby_sum String.eqb String.leb Site filtered).

Definition gear_catch_df (filtered : DataFrame) : list (string * Z) :=
  groupby_sum String.eqb String.leb Gear_Type filtered.

Definition species_catch_df (filtered : DataFrame) : list (string * Z) :=
  sort_values_by_weight_desc
    (groupby_sum String.eqb String.leb Species filtered).

Definition site_species_df (filtered : DataFrame)
  : list ((string * string) * Z) :=
  groupby_sum pair_eqb pair_leb (fun r => (Site r, Species r)) filtered.

(** ** The page *)

Inductive MetricValue :=
| kg_value (hundredths : Z)
| count_value (n : nat)
| mean_value (hundredths : option Q).

(** What the script emits on the main page, in order.  The sidebar, the
    column layout and the figure styling are left out. *)
Inductive Element :=
| title (text : string)
| markdown_summary (start_date end_date : date) (selected_sites : list string)
| separator
| metric (label : string) (value : MetricValue)
| warning (text : string)
| header (text : string)
| subheader (text : string)
| line_chart (data : list (date * Z))
| bar_chart (data : list (string * Z))
| pie_chart (data : list (string * Z))
| stacked_bar_chart (data : list ((string * string) * Z))
| dataframe (rows : DataFrame).

(** [DataFrame.empty] and [DataFrame.head(n)] *)
Definition empty (df : DataFrame) : bool :=
  match df with [] => true | _ :: _ => false end.

Definition head (n : nat) (df : DataFrame) : DataFrame := firstn n df.

(** Lines 88-103 *)
Definition metrics_section (filtered : DataFrame) : list Element :=
  if negb (empty filtered) then
    [ metric "Total Catch (kg)" (kg_value (total_catch filtered));
      metric "Number of Records" (count_value (num_records_filtered filtered));
      metric "Average Catch per Record (kg)"
             (mean_value (avg_catch_per_record filtered));
      separator ]
  else
    [ warning "No data available for the selected filters." ].

(** Lines 106-195 *)
Definition visualizations_section (df filtered : DataFrame) : list Element :=
  if negb (empty filtered) then
    [ header "Catch Analysis";
      subheader "Catch Weight Over Time";
      line_chart (time_series_df filtered);
      subheader "Catch by Site";
      bar_chart (site_catch_df filtered);
      subheader "Catch Distribution by Gear Type";
      pie_chart (gear_catch_df filtered);
      subheader "Catch by Species";
      bar_chart (species_catch_df filtered);
      subheader "Species Catch per Site";
      stacked_bar_chart (site_species_df filtered);
      separator;
      header "Filtered Data Records";
      dataframe filtered ]
  else
    [ header "Original Sample Data (Top 100 rows)";
      dataframe (head 100 df) ].

(** Lines 75-195, once the two dates and the site selection are known.
    The title is given without its pictogram, and the summary line by the
    three values it is formatted from. *)
Definition main_page (df : DataFrame) (start_date end_date : date)
           (selected_sites : list string) : list Element :=
  let filtered := filtered_df df start_date end_date selected_sites in
  [ title "Fishery Catch Data Visualization";
    markdown_summary start_date end_date selected_sites;
    separator ]
  ++ metrics_section filtered
  ++ visualizations_section df filtered.

(** The script from line 47 on, for a table [df] that is already made.  On an empty table [min()] and [max()]
    are NaN and the date widget cannot be built: [None]. *)
Definition script (df : DataFrame) (date_range : list date)
           (selected_sites : list string) : option (list Element) :=
  match Series_min (column Date df), Series_max (column Date df) with
  | Some min_date, Some max_date =>
      let (start_date, end_date) :=
        resolve_date_range min_date max_date date_range in
      Some (main_page df start_date end_date selected_sites)
  | _, _ => None
  end.

(** ** Concrete inputs, to run the model *)

(** A 64-bit linear congruential generator, to run the model. *)
Definition lcg_next (s : Z) : Z * Z :=
  let s' := (s * 6364136223846793005 + 1442695040888963407) mod 2 ^ 64 in
  (s' / 2 ^ 11, s').

(** The table of the worked example. *)
Definition example_table : DataFrame :=
  [ mkRecord (ymd2ord 2024 1 1) "Fumba Bay" "Tuna" 1000 "Net";
    mkRecord (ymd2ord 2024 1 2) "Fumba Bay" "Snapper" 2000 "Trap";
    mkRecord (ymd2ord 2024 2 1) "Nungwi Reef" "Tuna" 500 "Net" ].

(** ** Properties stated in the words of the specification *)

(** A record passes the filter: its date is in the closed interval and its
    site is one of the selected ones. *)
Definition passes (start_date end_date : date) (selected_sites : list string)
           (r : CatchRecord) : Prop :=
  start_date <= Date r <= end_date /\ In (Site r) selected_sites.

Definition passes_dec (start_date end_date : date)
           (selected_sites : list string) (r : CatchRecord)
  : {passes start_date end_date selected_sites r}
    + {~ passes start_date end_date selected_sites r}.
Proof.
  unfold passes.
  destruct (Z_le_dec start_date (Date r)) as [H1 | H1];
    [ | right; intros [[? ?] ?]; contradiction ].
  destruct (Z_le_dec (Date r) end_date) as [H2 | H2];
    [ | right; intros [[? ?] ?]; contradiction ].
  destruct (in_dec string_dec (Site r) selected_sites) as [H3 | H3];
    [ left; auto | right; intros [_ ?]; contradiction ].
Defined.

(** The records of [df] that pass, in the order of [df]. *)
Definition passing_records (start_date end_date : date)
           (selected_sites : list string) (df : DataFrame) : DataFrame :=
  filter (fun r => if passes_dec start_date end_date selected_sites r
                   then true else false) df.

(** [l1] is [l2] with some elements left out. *)
Inductive subsequence {A : Type} : list A -> list A -> Prop :=
| subsequence_nil : subsequence [] []
| subsequence_skip x l1 l2 : subsequence l1 l2 -> subsequence l1 (x :: l2)
| subsequence_keep x l1 l2 : subsequence l1 l2 -> subsequence (x :: l1) (x :: l2).

Definition date_le (a b : CatchRecord) : Prop := Date a <= Date b.

(** The data-model bound on weights, here in its weak form. *)
Definition weights_nonnegative (df : DataFrame) : Prop :=
  Forall (fun r => 0 <= Catch_Weight_kg r) df.

(** An element that shows an aggregate of the filtered table. *)
Definition shows_aggregate (x : Element) : Prop :=
  match x with
  | metric _ _ | line_chart _ | bar_chart _ | pie_chart _
  | stacked_bar_chart _ => True
  | _ => False
  end.

(** The page shown when nothing passes the filter. *)
Definition fallback_page (df : DataFrame) (start_date end_date : date)
           (selected_sites : list string) : list Element :=
  [ title "Fishery Catch Data Visualization";
    markdown_summary start_date end_date selected_sites;
    separator;
    warning "No data available for the selected filters.";
    header "Original Sample Data (Top 100 rows)";
    dataframe (firstn 100 df) ].

(** ** Sums in a given arithmetic *)

Section Arithmetic.
Context {V : Type}.
(** The numbers, their addition and zero, and the number that a weight
    of so many hundredths is. *)
Variable add : V -> V -> V.
Variable zero : V.
Variable value : Z -> V.

(** [Series.sum()]: the values added one after the other, in index order. *)
Definition Series_sum_in (col : list V) : V := fold_left add col zero.

(** [df['Catch_Weight_kg'].sum()] *)
Definition total_catch_in (f : DataFrame) : V :=
  Series_sum_in (map value (column Catch_Weight_kg f)).

(** The sums of the groups of the keys [ks], in the order of [ks] *)
Definition group_sums_in {K : Type} (key_eqb : K -> K -> bool)
           (key : CatchRecord -> K) (f : DataFrame) (ks : list K) : list V :=
  map (fun k => total_catch_in (group key_eqb key f k)) ks.

End Arithmetic.

(** *** Binary64, the arithmetic of the code *)

(** The float of an integer, exact below 2^53 *)
Fixpoint float_of_pos (p : positive) : float :=
  match p with
  | xH => 1%float
  | xO p' => PrimFloat.mul 2 (float_of_pos p')
  | xI p' => PrimFloat.add (PrimFloat.mul 2 (float_of_pos p')) 1
  end.

Definition float_of_Z (z : Z) : float :=
  match z with
  | Z0 => 0%float
  | Zpos p => float_of_pos p
  | Zneg p => PrimFloat.opp (float_of_pos p)
  end.

(** The weight of [w] hundredths as the table holds it: [.round(2)]
    returns the integer of hundredths divided by 100, in binary64. *)
Definition kg_of_hundredths (w : Z) : float :=
  PrimFloat.div (float_of_Z w) 100.

(** [filtered_df['Catch_Weight_kg'].sum()] in binary64: numpy adds a
    Series of fewer than eight values one after the other, in index
    order. *)
Definition binary64_total_catch (f : DataFrame) : float :=
  total_catch_in PrimFloat.add 0%float kg_of_hundredths f.

(** The sum of one group in binary64: pandas adds the rows of a group
    with a compensated sum (in its [group_sum],
    [y = val - compensation; t = sumx + y;
     compensation = t - sumx - y; sumx = t]). *)
Definition compensated_step (acc : float * float) (val : float)
  : float * float :=
  let (sumx, compensation) := acc in
  let y := PrimFloat.sub val compensation in
  let t := PrimFloat.add sumx y in
  (t, PrimFloat.sub (PrimFloat.sub t sumx) y).

Definition binary64_group_sum (col : list float) : float :=
  fst (fold_left compensated_step col (0%float, 0%float)).

(** [filtered_df.groupby(key)['Catch_Weight_kg'].sum().reset_index()] in
    binary64 *)
Definition binary64_groupby_sum {K : Type} (key_eqb key_leb : K -> K -> bool)
           (key : CatchRecord -> K) (f : DataFrame) : list (K * float) :=
  map (fun k => (k, binary64_group_sum
                      (map kg_of_hundredths
                           (column Catch_Weight_kg (group key_eqb key f k)))))
      (group_keys key_eqb key_leb key f).

(** The sum over the sums of the groups.  (The tables by site and by
    species are sorted by their sums before they are shown; in the table
    below they have one row.) *)
Definition binary64_sum_of_group_sums {K : Type}
           (key_eqb key_leb : K -> K -> bool) (key : CatchRecord -> K)
           (f : DataFrame) : float :=
  Series_sum_in PrimFloat.add 0%float
                (map snd (binary64_groupby_sum key_eqb key_leb key f)).

(** Three records of 87.53, 121.33 and 14.15 kg of one site and one
    species, one per gear type; the gear types in ascending order are
    not in the order of the dates. *)
Definition rounding_table : DataFrame :=
  [ mkRecord (ymd2ord 2024 3 1) "Fumba Bay" "Tuna" 8753 "Handline";
    mkRecord (ymd2ord 2024 3 2) "Fumba Bay" "Tuna" 12133 "Net";
    mkRecord (ymd2ord 2024 3 3) "Fumba Bay" "Tuna" 1415 "Longline" ].

(** ** The rest of the sidebar *)

(** Lines 48-49: [df['Date'].min()] and [df['Date'].max()] *)
Definition min_date (df : DataFrame) : option date :=
  Series_min (column Date df).

Definition max_date (df : DataFrame) : option date :=
  Series_max (column Date df).

(** Line 67: [sorted(df['Site'].unique())], the options of the site
    widget and its default selection *)
Definition all_sites (df : DataFrame) : list string :=
  sort_by String.leb (unique String.eqb (column Site df)).

(** The sites that two selections share, in the order of the first *)
Definition both_selected (sel1 sel2 : list string) : list string :=
  filter (fun x => existsb (String.eqb x) sel2) sel1.

(** The closed vocabularies of a generated record *)
Definition in_vocabulary (r : CatchRecord) : Prop :=
  In (Site r) sites /\ In (Species r) species /\ In (Gear_Type r) gear.

(** The rows of a grouped table that belong to one site *)
Definition rows_of_site (site : string) (t : list ((string * string) * Z))
  : list ((string * string) * Z) :=
  filter (fun p => String.eqb (fst (fst p)) site) t.

(** * Theorems *)

Example start_date_ordinal : start_date = 738886.
Proof. reflexivity. Qed.

Example generate_4 :
  map (fun r => (Date r - start_date, Site r, Catch_Weight_kg r))
      (fst (generate_sample_data Z lcg_next 4 42))
  = [(257, "Paje Kelp Beds", 6168); (408, "Mnemba Atoll", 5235);
     (427, "Paje Kelp Beds", 13847); (437, "Kizimkazi Channel", 12040)].
Proof. vm_compute. reflexivity. Qed.

Example example_filter :
  filtered_df example_table (ymd2ord 2024 1 1) (ymd2ord 2024 1 31)
              ["Fumba Bay"] = firstn 2 example_table.
Proof. reflexivity. Qed.

Example example_total :
  total_catch (filtered_df example_table (ymd2ord 2024 1 1)
                           (ymd2ord 2024 1 31) ["Fumba Bay"]) = 3000.
Proof. reflexivity. Qed.

Example example_species :
  species_catch_df (filtered_df example_table (ymd2ord 2024 1 1)
                                (ymd2ord 2024 1 31) ["Fumba Bay"])
  = [("Snapper", 2000); ("Tuna", 1000)].
Proof. reflexivity. Qed.

Example example_one_endpoint :
  script example_table [ymd2ord 2024 1 15] ["Fumba Bay"]
  = Some (main_page example_table (ymd2ord 2024 1 1) (ymd2ord 2024 2 1)
                    ["Fumba Bay"]).
Proof. reflexivity. Qed.

(** ** Sorting *)

Section SortingFacts.
Context {A : Type}.
Variable leb : A -> A -> bool.

Lemma insert_sorted_Permutation (x : A) (l : list A) :
  Permutation (insert_sorted leb x l) (x :: l).
Proof.
  induction l as [| y l IH]; simpl.
  - apply Permutation_refl.
  - destruct (leb x y).
    + apply Permutation_refl.
    + apply perm_trans with (y :: x :: l).
      * apply perm_skip, IH.
      * apply perm_swap.
Qed.

Lemma sort_by_Permutation (l : list A) : Permutation (sort_by leb l) l.
Proof.
  induction l as [| x l IH]; simpl.
  - apply perm_nil.
  - apply perm_trans with (x :: sort_by leb l).
    + apply insert_sorted_Permutation.
    + apply perm_skip, IH.
Qed.

Hypothesis leb_total : forall a b, leb a b = true \/ leb b a = true.

Lemma insert_sorted_HdRel (a x : A) (l : list A) :
  (leb_rel leb) a x -> HdRel (leb_rel leb) a l -> HdRel (leb_rel leb) a (insert_sorted leb x l).
Proof.
  intros Hax Hl. destruct l as [| y l]; simpl.
  - constructor. exact Hax.
  - destruct (leb x y).
    + constructor. exact Hax.
    + constructor. inversion Hl; assumption.
Qed.

Lemma insert_sorted_Sorted (x : A) (l : list A) :
  Sorted (leb_rel leb) l -> Sorted (leb_rel leb) (insert_sorted leb x l).
Proof.
  induction 1 as [| y l Hs IH Hhd]; simpl.
  - repeat constructor.
  - destruct (leb x y) eqn:E.
    + constructor; [ constructor; assumption | constructor; exact E ].
    + constructor; [ exact IH | ].
      apply insert_sorted_HdRel; [ | exact Hhd ].
      destruct (leb_total x y) as [H | H]; [ congruence | exact H ].
Qed.

Lemma sort_by_Sorted (l : list A) : Sorted (leb_rel leb) (sort_by leb l).
Proof.
  induction l as [| x l IH]; simpl.
  - constructor.
  - apply insert_sorted_Sorted, IH.
Qed.

Hypothesis leb_trans :
  forall a b c, leb a b = true -> leb b c = true -> leb a c = true.

Lemma sort_by_StronglySorted (l : list A) :
  StronglySorted (leb_rel leb) (sort_by leb l).
Proof.
  apply Sorted_StronglySorted.
  - intros a b c. apply leb_trans.
  - apply sort_by_Sorted.
Qed.
End SortingFacts.

(** ** The filter *)

Lemma filtered_df_filter (df : DataFrame) (s e : date) (sel : list string) :
  filtered_df df s e sel = filter (keep_row s e sel) df.
Proof.
  unfold filtered_df, column, Series_ge, Series_le, isin.
  induction df as [| r df IH]; simpl.
  - reflexivity.
  - rewrite IH. reflexivity.
Qed.

Lemma existsb_eqb_In (x : string) (l : list string) :
  existsb (String.eqb x) l = true <-> In x l.
Proof.
  rewrite existsb_exists. split.
  - intros [y [Hy Heq]]. apply String.eqb_eq in Heq. subst. exact Hy.
  - intros H. exists x. split; [ exact H | apply String.eqb_refl ].
Qed.

Lemma keep_row_passes (s e : date) (sel : list string) (r : CatchRecord) :
  keep_row s e sel r = true <-> passes s e sel r.
Proof.
  unfold keep_row, passes.
  rewrite !andb_true_iff, !Z.leb_le, existsb_eqb_In. tauto.
Qed.

Lemma filter_subsequence {A : Type} (p : A -> bool) (l : list A) :
  subsequence (filter p l) l.
Proof.
  induction l as [| x l IH]; simpl.
  - constructor.
  - destruct (p x); constructor; exact IH.
Qed.

Lemma filter_idempotent {A : Type} (p : A -> bool) (l : list A) :
  filter p (filter p l) = filter p l.
Proof.
  induction l as [| x l IH]; simpl.
  - reflexivity.
  - destruct (p x) eqn:E; simpl; [ rewrite E, IH | ]; auto.
Qed.

Lemma filter_all {A : Type} (p : A -> bool) (l : list A) :
  (forall x, In x l -> p x = true) -> filter p l = l.
Proof.
  induction l as [| x l IH]; intros H; simpl; [ reflexivity | ].
  rewrite (H x (or_introl eq_refl)). f_equal.
  apply IH. intros y Hy. apply H. right. exact Hy.
Qed.

Lemma filter_none {A : Type} (p : A -> bool) (l : list A) :
  (forall x, In x l -> p x = false) -> filter p l = [].
Proof.
  induction l as [| x l IH]; intros H; simpl; [ reflexivity | ].
  rewrite (H x (or_introl eq_refl)).
  apply IH. intros y Hy. apply H. right. exact Hy.
Qed.

Lemma filter_StronglySorted {A : Type} (R : A -> A -> Prop) (p : A -> bool)
      (l : list A) :
  StronglySorted R l -> StronglySorted R (filter p l).
Proof.
  induction 1 as [| x l Hs IH Hall]; simpl.
  - constructor.
  - destruct (p x); [ | exact IH ].
    constructor; [ exact IH | ].
    rewrite Forall_forall in *. intros y Hy.
    apply filter_In in Hy. apply Hall, Hy.
Qed.

Lemma total_catch_filter_le (p : CatchRecord -> bool) (df : DataFrame) :
  weights_nonnegative df -> total_catch (filter p df) <= total_catch df.
Proof.
  unfold total_catch, column.
  induction 1 as [| r df Hr Hdf IH]; simpl.
  - lia.
  - destruct (p r); simpl; lia.
Qed.

(** C2: the filter returns exactly the records of the table, in table
    order, whose date lies in the closed interval [start, end] and whose
    site is one of the selected sites: it is the list of passing records,
    a subsequence of the table, and a record is in it exactly when it is
    in the table and passes. *)
Theorem filtered_df_exact (df : DataFrame) (s e : date) (sel : list string) :
  filtered_df df s e sel = passing_records s e sel df
  /\ subsequence (filtered_df df s e sel) df
  /\ (forall r, In r (filtered_df df s e sel) <->
                In r df /\ s <= Date r <= e /\ In (Site r) sel).
Proof.
  rewrite filtered_df_filter. split; [ | split ].
  - unfold passing_records. apply filter_ext. intros r.
    destruct (passes_dec s e sel r) as [H | H].
    + apply keep_row_passes, H.
    + destruct (keep_row s e sel r) eqn:E; [ | reflexivity ].
      apply keep_row_passes in E. contradiction.
  - apply filter_subsequence.
  - intros r. rewrite filter_In, keep_row_passes. unfold passes. tauto.
Qed.

(** C7: filtering is idempotent: filtering a filtered table again with
    the same interval and the same sites changes nothing. *)
Theorem filtered_df_idempotent (df : DataFrame) (s e : date)
        (sel : list string) :
  filtered_df (filtered_df df s e sel) s e sel = filtered_df df s e sel.
Proof.
  rewrite !filtered_df_filter. apply filter_idempotent.
Qed.

(** C8: on a table whose weights are not negative (the data model has
    them positive), the total weight of the filtered table is at most the
    total weight of the table, for every interval and site selection. *)
Theorem filtered_total_le (df : DataFrame) (s e : date) (sel : list string) :
  weights_nonnegative df ->
  total_catch (filtered_df df s e sel) <= total_catch df.
Proof.
  intros H. rewrite filtered_df_filter. apply total_catch_filter_le, H.
Qed.

Lemma filtered_total_le_witness :
  weights_nonnegative example_table
  /\ total_catch (filtered_df example_table (ymd2ord 2024 1 1)
                              (ymd2ord 2024 1 31) ["Fumba Bay"])
     <= total_catch example_table.
Proof.
  assert (H : weights_nonnegative example_table).
  { unfold weights_nonnegative, example_table.
    repeat constructor; simpl; lia. }
  split; [ exact H | ].
  apply (filtered_total_le example_table (ymd2ord 2024 1 1)
                           (ymd2ord 2024 1 31) ["Fumba Bay"] H).
Defined.

(** ** The empty result and the fallback preview *)

Lemma main_page_empty (df : DataFrame) (s e : date) (sel : list string) :
  filtered_df df s e sel = [] ->
  main_page df s e sel = fallback_page df s e sel.
Proof.
  intros H. unfold main_page. rewrite H. reflexivity.
Qed.

Lemma main_page_nonempty (df : DataFrame) (s e : date) (sel : list string) :
  filtered_df df s e sel <> [] ->
  In (dataframe (filtered_df df s e sel)) (main_page df s e sel)
  /\ In (line_chart (time_series_df (filtered_df df s e sel)))
        (main_page df s e sel).
Proof.
  intros H. unfold main_page.
  destruct (filtered_df df s e sel) as [| r f]; [ contradiction | ].
  simpl. intuition.
Qed.

(** Whatever the inputs, a mean shown on the page is a number: the
    division is made on a table with at least one row. *)
Lemma mean_metric_defined (df : DataFrame) (s e : date) (sel : list string)
      (label : string) (m : option Q) :
  In (metric label (mean_value m)) (main_page df s e sel) -> m <> None.
Proof.
  unfold main_page, metrics_section, visualizations_section,
    avg_catch_per_record, column.
  destruct (filtered_df df s e sel) as [| r f]; simpl.
  - intros H.
    repeat (destruct H as [H | H]; [ discriminate H | ]). destruct H.
  - intros H.
    repeat (destruct H as [H | H]; [ inversion H; subst; discriminate | ]).
    destruct H.
Qed.

(** C5: with no site selected the filtered table is empty, whatever the
    table and the interval, and the page is the fallback preview: the
    warning and the first rows of the unfiltered table, no metric and no
    chart. *)
Theorem empty_selection_falls_back (df : DataFrame) (s e : date) :
  filtered_df df s e [] = []
  /\ main_page df s e [] = fallback_page df s e []
  /\ Forall (fun x => ~ shows_aggregate x) (main_page df s e []).
Proof.
  assert (H : filtered_df df s e [] = []).
  { rewrite filtered_df_filter.
    induction df as [| r df IH]; simpl; [ reflexivity | ].
    unfold keep_row at 1. simpl. rewrite andb_false_r. exact IH. }
  split; [ exact H | ].
  rewrite (main_page_empty _ _ _ _ H). split; [ reflexivity | ].
  unfold fallback_page. repeat constructor; simpl; tauto.
Qed.

(** C6: when the filtered table is empty the page holds no aggregate of
    it (no metric, so no mean, and no chart) and shows the first 100 rows
    of the unfiltered table instead. *)
Theorem empty_result_shows_preview (df : DataFrame) (s e : date)
        (sel : list string) :
  filtered_df df s e sel = [] ->
  main_page df s e sel = fallback_page df s e sel
  /\ In (dataframe (firstn 100 df)) (main_page df s e sel)
  /\ Forall (fun x => ~ shows_aggregate x) (main_page df s e sel).
Proof.
  intros H. rewrite (main_page_empty _ _ _ _ H).
  split; [ reflexivity | split ].
  - unfold fallback_page. simpl. tauto.
  - unfold fallback_page. repeat constructor; simpl; tauto.
Qed.

Lemma empty_result_shows_preview_witness :
  filtered_df example_table (ymd2ord 2025 1 1) (ymd2ord 2025 1 31)
              ["Fumba Bay"] = []
  /\ (main_page example_table (ymd2ord 2025 1 1) (ymd2ord 2025 1 31)
                ["Fumba Bay"]
      = fallback_page example_table (ymd2ord 2025 1 1) (ymd2ord 2025 1 31)
                      ["Fumba Bay"]
      /\ In (dataframe (firstn 100 example_table))
            (main_page example_table (ymd2ord 2025 1 1) (ymd2ord 2025 1 31)
                       ["Fumba Bay"])
      /\ Forall (fun x => ~ shows_aggregate x)
                (main_page example_table (ymd2ord 2025 1 1)
                           (ymd2ord 2025 1 31) ["Fumba Bay"])).
Proof.
  split; [ reflexivity | ].
  apply (empty_result_shows_preview example_table (ymd2ord 2025 1 1)
           (ymd2ord 2025 1 31) ["Fumba Bay"]).
  reflexivity.
Defined.

(** ** The date interval *)

Lemma resolve_date_range_two (mn mx a b : date) :
  resolve_date_range mn mx [a; b] = (a, b).
Proof. reflexivity. Qed.

Lemma resolve_date_range_not_two (mn mx : date) (date_range : list date) :
  List.length date_range <> 2%nat ->
  resolve_date_range mn mx date_range = (mn, mx).
Proof.
  intros H. unfold resolve_date_range.
  destruct (Nat.eqb_spec (List.length date_range) 2);
    [ contradiction | reflexivity ].
Qed.

(** C1, as the code has it: when the date widget hands over exactly one
    date, that date is dropped and the interval runs from the table's
    first date to its last one; nothing fails. *)
Theorem one_endpoint_uses_full_range (mn mx : date) (date_range : list date) :
  List.length date_range = 1%nat ->
  resolve_date_range mn mx date_range = (mn, mx).
Proof.
  intros H. apply resolve_date_range_not_two. rewrite H. discriminate.
Qed.

Lemma one_endpoint_uses_full_range_witness :
  List.length [ymd2ord 2024 6 15] = 1%nat
  /\ resolve_date_range (ymd2ord 2024 1 1) (ymd2ord 2024 12 31)
                        [ymd2ord 2024 6 15]
     = (ymd2ord 2024 1 1, ymd2ord 2024 12 31).
Proof.
  split; [ reflexivity | ].
  apply (one_endpoint_uses_full_range (ymd2ord 2024 1 1) (ymd2ord 2024 12 31)
           [ymd2ord 2024 6 15]).
  reflexivity.
Defined.

(** C1, as the claim has it, fails: with 2024-06-15 as the only date
    supplied and a table that runs from 2024-01-01 to 2024-12-31, the
    interval keeps the supplied date neither as its start nor as its
    end. *)
Lemma one_endpoint_not_kept :
  let supplied := ymd2ord 2024 6 15 in
  let mn := ymd2ord 2024 1 1 in
  let mx := ymd2ord 2024 12 31 in
  ~ (resolve_date_range mn mx [supplied] = (supplied, mx)
     \/ resolve_date_range mn mx [supplied] = (mn, supplied)).
Proof.
  vm_compute. intros [H | H]; discriminate H.
Qed.

Lemma script_one_endpoint (df : DataFrame) (d : date) (sel : list string) :
  script df [d] sel = script df [] sel.
Proof. reflexivity. Qed.

(** ** Grouped sums *)

Lemma filter_disjoint_Permutation {A : Type} (p q : A -> bool) (l : list A) :
  (forall x, In x l -> p x = true -> q x = false) ->
  Permutation (filter p l ++ filter q l) (filter (fun x => p x || q x) l).
Proof.
  induction l as [| x l IH]; intros H; simpl; [ apply perm_nil | ].
  assert (IH' : Permutation (filter p l ++ filter q l)
                            (filter (fun y => p y || q y) l)).
  { apply IH. intros y Hy. apply H. right. exact Hy. }
  destruct (p x) eqn:Ep; simpl.
  - rewrite (H x (or_introl eq_refl) Ep). apply perm_skip, IH'.
  - destruct (q x); simpl; [ | exact IH' ].
    apply Permutation_sym, Permutation_cons_app, Permutation_sym, IH'.
Qed.

Lemma Series_sum_cons (x : Z) (l : list Z) :
  Series_sum (x :: l) = x + Series_sum l.
Proof. reflexivity. Qed.

Section GroupByFacts.
Context {K : Type}.
Variable key_eqb : K -> K -> bool.
Variable key_leb : K -> K -> bool.
Variable key : CatchRecord -> K.
Hypothesis key_eqb_eq : forall a b, key_eqb a b = true <-> a = b.

Lemma unique_In (k : K) (ks : list K) :
  In k (unique key_eqb ks) <-> In k ks.
Proof.
  induction ks as [| x ks IH]; simpl; [ tauto | ].
  rewrite filter_In, IH, negb_true_iff.
  destruct (key_eqb k x) eqn:E.
  - apply key_eqb_eq in E. subst. intuition congruence.
  - assert (x <> k).
    { intros ->. rewrite (proj2 (key_eqb_eq k k) eq_refl) in E.
      discriminate. }
    tauto.
Qed.

Lemma unique_NoDup (ks : list K) : NoDup (unique key_eqb ks).
Proof.
  induction ks as [| x ks IH]; simpl; constructor.
  - rewrite filter_In, negb_true_iff. intros [_ H].
    rewrite (proj2 (key_eqb_eq x x) eq_refl) in H. discriminate.
  - apply NoDup_filter, IH.
Qed.

Lemma group_keys_In (df : DataFrame) (r : CatchRecord) :
  In r df -> In (key r) (group_keys key_eqb key_leb key df).
Proof.
  intros H. unfold group_keys.
  apply Permutation_in with (l := unique key_eqb (column key df)).
  - apply Permutation_sym, sort_by_Permutation.
  - apply unique_In. unfold column. apply in_map, H.
Qed.

Lemma group_keys_NoDup (df : DataFrame) :
  NoDup (group_keys key_eqb key_leb key df).
Proof.
  unfold group_keys.
  apply Permutation_NoDup with (l := unique key_eqb (column key df)).
  - apply Permutation_sym, sort_by_Permutation.
  - apply unique_NoDup.
Qed.

(** The groups of distinct keys, one after the other, hold the records
    whose key is one of them, each record once. *)
Lemma groups_concat_Permutation (ks : list K) (df : DataFrame) :
  NoDup ks ->
  Permutation (List.concat (map (group key_eqb key df) ks))
              (filter (fun r => existsb (key_eqb (key r)) ks) df).
Proof.
  induction 1 as [| k ks Hk Hnd IH]; simpl.
  - rewrite filter_none; [ apply perm_nil | intros; reflexivity ].
  - apply perm_trans
      with (group key_eqb key df k
            ++ filter (fun r => existsb (key_eqb (key r)) ks) df).
    + apply Permutation_app_head, IH.
    + unfold group. apply filter_disjoint_Permutation.
      intros r _ Hr. apply key_eqb_eq in Hr. subst k.
      destruct (existsb (key_eqb (key r)) ks) eqn:E; [ | reflexivity ].
      apply existsb_exists in E. destruct E as [k' [Hin Heq]].
      apply key_eqb_eq in Heq. subst k'. contradiction.
Qed.

(** The groups of the keys of the table, taken in any order, hold every
    record of the table once. *)
Lemma groups_partition (ks : list K) (df : DataFrame) :
  Permutation ks (group_keys key_eqb key_leb key df) ->
  Permutation (List.concat (map (group key_eqb key df) ks)) df.
Proof.
  intros Hks.
  assert (Hnd : NoDup ks).
  { apply (Permutation_NoDup (Permutation_sym Hks)), group_keys_NoDup. }
  apply perm_trans with (1 := groups_concat_Permutation ks df Hnd).
  rewrite filter_all; [ apply Permutation_refl | ].
  intros r Hr. apply existsb_exists. exists (key r). split.
  - apply (Permutation_in _ (Permutation_sym Hks)), group_keys_In, Hr.
  - apply key_eqb_eq. reflexivity.
Qed.

Lemma groupby_sum_keys (df : DataFrame) :
  map fst (groupby_sum key_eqb key_leb key df)
  = group_keys key_eqb key_leb key df.
Proof.
  unfold groupby_sum. rewrite map_map. simpl. apply map_id.
Qed.
End GroupByFacts.

Lemma pair_eqb_eq (a b : string * string) : pair_eqb a b = true <-> a = b.
Proof.
  destruct a as [a1 a2], b as [b1 b2]. unfold pair_eqb. simpl.
  rewrite andb_true_iff, !String.eqb_eq. split.
  - intros [-> ->]. reflexivity.
  - intros H. inversion H. auto.
Qed.

(** *** Addition that is associative and commutative *)

Section CommutativeAddition.
Context {V : Type}.
Variable add : V -> V -> V.
Variable zero : V.
Variable value : Z -> V.
Hypothesis add_assoc : forall a b c, add a (add b c) = add (add a b) c.
Hypothesis add_comm : forall a b, add a b = add b a.
Hypothesis add_zero : forall a, add zero a = a.

Lemma fold_left_add_start (l : list V) (a b : V) :
  fold_left add l (add a b) = add a (fold_left add l b).
Proof.
  revert b. induction l as [| x l IH]; intros b; simpl; [ reflexivity | ].
  rewrite <- add_assoc. apply IH.
Qed.

Lemma Series_sum_in_cons (x : V) (l : list V) :
  Series_sum_in add zero (x :: l) = add x (Series_sum_in add zero l).
Proof.
  unfold Series_sum_in. simpl.
  rewrite (add_comm zero x). apply fold_left_add_start.
Qed.

Lemma Series_sum_in_app (l1 l2 : list V) :
  Series_sum_in add zero (l1 ++ l2)
  = add (Series_sum_in add zero l1) (Series_sum_in add zero l2).
Proof.
  induction l1 as [| x l1 IH].
  - simpl. symmetry. apply add_zero.
  - rewrite <- app_comm_cons, !Series_sum_in_cons, IH. apply add_assoc.
Qed.

Lemma Series_sum_in_Permutation (l l' : list V) :
  Permutation l l' -> Series_sum_in add zero l = Series_sum_in add zero l'.
Proof.
  induction 1 as [| x l l' Hp IH | x y l | l l' l'' H1 IH1 H2 IH2].
  - reflexivity.
  - rewrite !Series_sum_in_cons, IH. reflexivity.
  - rewrite !Series_sum_in_cons, !add_assoc, (add_comm y x). reflexivity.
  - rewrite IH1. exact IH2.
Qed.

Lemma Series_sum_in_concat (ls : list (list V)) :
  Series_sum_in add zero (List.concat ls)
  = Series_sum_in add zero (map (Series_sum_in add zero) ls).
Proof.
  induction ls as [| l ls IH]; [ reflexivity | ].
  simpl List.concat. rewrite Series_sum_in_app, IH.
  simpl map. rewrite Series_sum_in_cons. reflexivity.
Qed.

Lemma group_sums_in_total {K : Type} (key_eqb key_leb : K -> K -> bool)
      (key : CatchRecord -> K)
      (key_eqb_eq : forall a b, key_eqb a b = true <-> a = b)
      (f : DataFrame) (ks : list K) :
  Permutation ks (group_keys key_eqb key_leb key f) ->
  Permutation (List.concat (map (group key_eqb key f) ks)) f
  /\ Series_sum_in add zero (group_sums_in add zero value key_eqb key f ks)
     = total_catch_in add zero value f.
Proof.
  intros Hks.
  pose proof (groups_partition key_eqb key_leb key key_eqb_eq ks f Hks)
    as Hpart.
  split; [ exact Hpart | ].
  unfold group_sums_in, total_catch_in, column.
  rewrite <- (map_map (fun k => map value
                                    (map Catch_Weight_kg
                                         (group key_eqb key f k)))
                      (Series_sum_in add zero)).
  rewrite <- Series_sum_in_concat.
  apply Series_sum_in_Permutation.
  rewrite <- (map_map (group key_eqb key f)
                      (fun g => map value (map Catch_Weight_kg g))).
  rewrite <- (map_map (map Catch_Weight_kg) (map value)).
  rewrite <- !List.concat_map.
  apply Permutation_map, Permutation_map, Hpart.
Qed.
End CommutativeAddition.

(** The exact total of the model is this total for the integers. *)
Lemma total_catch_in_exact (f : DataFrame) :
  total_catch_in Z.add 0 (fun w => w) f = total_catch f.
Proof.
  unfold total_catch_in, total_catch, Series_sum_in, Series_sum.
  rewrite map_id. apply fold_symmetric; intros; lia.
Qed.

(** C3, as the claim has it, fails in the arithmetic of the code: on
    three records of 87.53, 121.33 and 14.15 kg (one site, one species,
    three gear types) the total catch is 223.01000000000002, while the
    one sum by site, the one sum by species and the three sums by gear
    type each add up to 223.00999999999999. *)
Lemma group_sums_differ_in_binary64 :
  let f := filtered_df rounding_table (ymd2ord 2024 3 1) (ymd2ord 2024 3 3)
                       ["Fumba Bay"] in
  let total := binary64_total_catch f in
  PrimFloat.ltb (binary64_sum_of_group_sums String.eqb String.leb Site f)
                total = true
  /\ PrimFloat.ltb (binary64_sum_of_group_sums String.eqb String.leb Species f)
                   total = true
  /\ PrimFloat.ltb
       (binary64_sum_of_group_sums String.eqb String.leb Gear_Type f)
       total = true
  /\ PrimFloat.eqb
       (binary64_sum_of_group_sums String.eqb String.leb Gear_Type f)
       total = false.
Proof.
  vm_compute. repeat split; reflexivity.
Qed.

(** C3, as the code has it: the groups by site, by species and by gear
    type each hold every record of the filtered table once, so that the
    sums of the groups, added in any order of the keys, are the total
    catch whenever the addition is associative and commutative with zero
    neutral, as the exact addition of the hundredths is. *)
Theorem group_sums_partition_in_exact_arithmetic
        (V : Type) (add : V -> V -> V) (zero : V) (value : Z -> V) :
  (forall a b c, add a (add b c) = add (add a b) c) ->
  (forall a b, add a b = add b a) ->
  (forall a, add zero a = a) ->
  forall (df : DataFrame) (s e : date) (sel : list string),
  let f := filtered_df df s e sel in
  (forall ks, Permutation ks (group_keys String.eqb String.leb Site f) ->
     Permutation (List.concat (map (group String.eqb Site f) ks)) f
     /\ Series_sum_in add zero (group_sums_in add zero value String.eqb Site f ks)
        = total_catch_in add zero value f)
  /\ (forall ks, Permutation ks (group_keys String.eqb String.leb Species f) ->
        Permutation (List.concat (map (group String.eqb Species f) ks)) f
        /\ Series_sum_in add zero
             (group_sums_in add zero value String.eqb Species f ks)
           = total_catch_in add zero value f)
  /\ (forall ks, Permutation ks (group_keys String.eqb String.leb Gear_Type f) ->
        Permutation (List.concat (map (group String.eqb Gear_Type f) ks)) f
        /\ Series_sum_in add zero
             (group_sums_in add zero value String.eqb Gear_Type f ks)
           = total_catch_in add zero value f).
Proof.
  intros Hassoc Hcomm Hzero df s e sel f.
  split; [ | split ]; intros ks Hks;
    apply (group_sums_in_total add zero value Hassoc Hcomm Hzero
             String.eqb String.leb _ String.eqb_eq f ks Hks).
Qed.

Lemma group_sums_partition_in_exact_arithmetic_witness :
  (forall a b c : Z, a + (b + c) = a + b + c)
  /\ (forall a b : Z, a + b = b + a)
  /\ (forall a : Z, 0 + a = a)
  /\ (let f := filtered_df rounding_table (ymd2ord 2024 3 1)
                           (ymd2ord 2024 3 3) ["Fumba Bay"] in
      (forall ks, Permutation ks (group_keys String.eqb String.leb Site f) ->
         Permutation (List.concat (map (group String.eqb Site f) ks)) f
         /\ Series_sum_in Z.add 0
              (group_sums_in Z.add 0 (fun w => w) String.eqb Site f ks)
            = total_catch_in Z.add 0 (fun w => w) f)
      /\ (forall ks,
            Permutation ks (group_keys String.eqb String.leb Species f) ->
            Permutation (List.concat (map (group String.eqb Species f) ks)) f
            /\ Series_sum_in Z.add 0
                 (group_sums_in Z.add 0 (fun w => w) String.eqb Species f ks)
               = total_catch_in Z.add 0 (fun w => w) f)
      /\ (forall ks,
            Permutation ks (group_keys String.eqb String.leb Gear_Type f) ->
            Permutation (List.concat (map (group String.eqb Gear_Type f) ks)) f
            /\ Series_sum_in Z.add 0
                 (group_sums_in Z.add 0 (fun w => w) String.eqb Gear_Type f ks)
               = total_catch_in Z.add 0 (fun w => w) f)).
Proof.
  assert (H1 : forall a b c : Z, a + (b + c) = a + b + c) by (intros; lia).
  assert (H2 : forall a b : Z, a + b = b + a) by (intros; lia).
  assert (H3 : forall a : Z, 0 + a = a) by (intros; lia).
  split; [ exact H1 | split; [ exact H2 | split; [ exact H3 | ] ] ].
  apply (group_sums_partition_in_exact_arithmetic Z Z.add 0 (fun w => w)
           H1 H2 H3 rounding_table (ymd2ord 2024 3 1) (ymd2ord 2024 3 3)
           ["Fumba Bay"]).
Defined.

(** ** The order of the grouped tables *)

Lemma StronglySorted_impl {A : Type} (R R' : A -> A -> Prop) (l : list A) :
  (forall a b, R a b -> R' a b) -> StronglySorted R l -> StronglySorted R' l.
Proof.
  intros HR. induction 1 as [| x l Hs IH Hall]; constructor.
  - exact IH.
  - apply Forall_impl with (P := R x); [ apply HR | exact Hall ].
Qed.

Lemma StronglySorted_map {A B : Type} (R : A -> A -> Prop)
      (R' : B -> B -> Prop) (f : A -> B) (l : list A) :
  (forall a b, R a b -> R' (f a) (f b)) ->
  StronglySorted R l -> StronglySorted R' (map f l).
Proof.
  intros HR. induction 1 as [| x l Hs IH Hall]; simpl; constructor.
  - exact IH.
  - apply Forall_map.
    apply Forall_impl with (P := R x); [ apply HR | exact Hall ].
Qed.

Lemma StronglySorted_le_NoDup_lt (l : list Z) :
  StronglySorted Z.le l -> NoDup l -> StronglySorted Z.lt l.
Proof.
  induction 1 as [| x l Hs IH Hall]; intros Hnd; constructor;
    inversion Hnd as [| ? ? Hx Hl]; subst.
  - apply IH, Hl.
  - rewrite Forall_forall in *. intros y Hy.
    specialize (Hall y Hy).
    assert (x <> y) by (intros ->; contradiction).
    lia.
Qed.

Lemma Zleb_total (a b : Z) : (a <=? b) = true \/ (b <=? a) = true.
Proof. rewrite !Z.leb_le. lia. Qed.

Lemma Zleb_trans (a b c : Z) :
  (a <=? b) = true -> (b <=? c) = true -> (a <=? c) = true.
Proof. rewrite !Z.leb_le. lia. Qed.

Lemma group_keys_dates_increasing (df : DataFrame) :
  StronglySorted Z.lt (group_keys Z.eqb Z.leb Date df).
Proof.
  apply StronglySorted_le_NoDup_lt.
  - apply StronglySorted_impl with (R := leb_rel Z.leb).
    + intros a b. unfold leb_rel. apply Z.leb_le.
    + apply sort_by_StronglySorted; [ apply Zleb_total | apply Zleb_trans ].
  - apply group_keys_NoDup, Z.eqb_eq.
Qed.

Lemma sort_values_by_weight_desc_sorted {K : Type} (t : list (K * Z)) :
  StronglySorted (fun a b => snd a >= snd b) (sort_values_by_weight_desc t).
Proof.
  apply StronglySorted_impl with (R := leb_rel weight_geb).
  - intros a b. unfold leb_rel, weight_geb. rewrite Z.leb_le. lia.
  - apply sort_by_StronglySorted.
    + intros a b. unfold weight_geb. apply Zleb_total.
    + intros a b c. unfold weight_geb. intros H1 H2.
      apply Zleb_trans with (b := snd b); assumption.
Qed.

(** ** The generator *)

Lemma round_half_even_bounds (num den lo hi : Z) :
  0 < den -> lo * den <= num <= hi * den ->
  lo <= round_half_even num den <= hi.
Proof.
  intros Hden [Hlo Hhi]. unfold round_half_even.
  pose proof (Z.div_mod num den ltac:(lia)) as Hdm.
  pose proof (Z.mod_pos_bound num den Hden) as Hr.
  set (q := num / den) in *. set (r := num mod den) in *.
  assert (Hq1 : lo <= q) by nia.
  assert (Hq2 : q <= hi) by nia.
  assert (Hq3 : q = hi -> r = 0) by nia.
  destruct (2 * r <? den) eqn:E1; [ lia | ].
  apply Z.ltb_ge in E1.
  assert (q < hi) by (destruct (Z.eq_dec q hi) as [Hq | Hq]; [ | lia ];
                      apply Hq3 in Hq; lia).
  destruct (den <? 2 * r); [ lia | ].
  destruct (Z.even q); lia.
Qed.

Lemma make_frame_length (n : nat) (dates : list date)
      (site_col species_col : list string) (weight_col : list Z)
      (gear_col : list string) :
  List.length dates = n -> List.length site_col = n ->
  List.length species_col = n -> List.length weight_col = n ->
  List.length gear_col = n ->
  List.length (make_frame dates site_col species_col weight_col gear_col) = n.
Proof.
  revert dates site_col species_col weight_col gear_col.
  induction n as [| n IH];
    intros [| d dates] [| s site_col] [| sp species_col] [| w weight_col]
           [| g gear_col]; simpl; try discriminate; try reflexivity.
  intros H1 H2 H3 H4 H5. f_equal. apply IH; congruence.
Qed.

Lemma make_frame_columns (P : date -> Prop) (Q : Z -> Prop)
      (dates : list date) (site_col species_col : list string)
      (weight_col : list Z) (gear_col : list string) :
  Forall P dates -> Forall Q weight_col ->
  Forall (fun r => P (Date r) /\ Q (Catch_Weight_kg r))
         (make_frame dates site_col species_col weight_col gear_col).
Proof.
  intros Hd. revert site_col species_col weight_col gear_col.
  induction Hd as [| d dates Hd Hds IH];
    intros [| s site_col] [| sp species_col] [| w weight_col]
           [| g gear_col] Hw; simpl; try constructor.
  - simpl. inversion Hw. auto.
  - apply IH. inversion Hw. assumption.
Qed.

Lemma sort_values_by_Date_sorted (df : DataFrame) :
  StronglySorted date_le (sort_values_by_Date df).
Proof.
  apply StronglySorted_impl with (R := leb_rel date_leb).
  - intros a b. unfold leb_rel, date_leb, date_le. apply Z.leb_le.
  - apply sort_by_StronglySorted.
    + intros a b. apply Zleb_total.
    + intros a b c. apply Zleb_trans.
Qed.

Section GeneratorFacts.
Variable RandomState : Type.
Variable next_raw : RandomState -> Z * RandomState.

Lemma replicateM_spec {A : Type} (P : A -> Prop) (m : Rand RandomState A) :
  (forall s, P (fst (m s))) ->
  forall n s, List.length (fst (replicateM n m s)) = n
              /\ Forall P (fst (replicateM n m s)).
Proof.
  intros Hm. induction n as [| n IH]; intros s; simpl.
  - split; constructor.
  - unfold bind, ret. specialize (Hm s).
    destruct (m s) as [x s1]. specialize (IH s1).
    destruct (replicateM n m s1) as [xs s2]. simpl in *.
    destruct IH as [IH1 IH2]. split; [ congruence | ].
    constructor; assumption.
Qed.

Lemma randint_range (low high : Z) (s : RandomState) :
  low < high -> low <= fst (randint RandomState next_raw low high s) < high.
Proof.
  intros H. unfold randint. destruct (next_raw s) as [r s']. simpl.
  pose proof (Z.mod_pos_bound r (high - low) ltac:(lia)). lia.
Qed.

Lemma uniform_round2_range (s : RandomState) :
  500 <= fst (uniform_round2 RandomState next_raw 5 150 s) <= 15000.
Proof.
  unfold uniform_round2, bind, ret, random_sample53.
  destruct (next_raw s) as [r s']. cbn [fst].
  pose proof (Z.mod_pos_bound r (2 ^ 53) ltac:(lia)) as Hk.
  apply round_half_even_bounds; lia.
Qed.

Lemma choice_In (xs : list string) (s : RandomState) :
  xs <> [] -> In (fst (choice RandomState next_raw xs s)) xs.
Proof.
  intros Hxs. unfold choice. destruct (next_raw s) as [r s']. simpl.
  apply nth_In.
  assert (0 < Z.of_nat (List.length xs)).
  { destruct xs; [ contradiction | simpl; lia ]. }
  pose proof (Z.mod_pos_bound r (Z.of_nat (List.length xs)) ltac:(lia)).
  lia.
Qed.

Lemma draw_date_range (s : RandomState) :
  start_date <= fst (draw_date RandomState next_raw s)
  < start_date + window_days.
Proof.
  unfold draw_date, bind, ret.
  pose proof (randint_range 0 window_days s ltac:(reflexivity)) as Hr.
  destruct (randint RandomState next_raw 0 window_days s) as [k s'].
  cbn [fst] in *. unfold add_days. lia.
Qed.

Lemma generate_sample_data_unsorted (N : nat) (s : RandomState) :
  exists df,
    fst (generate_sample_data RandomState next_raw N s)
    = sort_values_by_Date df
    /\ List.length df = N
    /\ Forall (fun r => start_date <= Date r < start_date + window_days
                        /\ 500 <= Catch_Weight_kg r <= 15000) df.
Proof.
  unfold generate_sample_data.
  unfold bind at 1.
  pose proof (replicateM_spec (A := date)
                (fun d => start_date <= d < start_date + window_days)
                (draw_date RandomState next_raw) draw_date_range N s)
    as Hdates.
  destruct (replicateM N (draw_date RandomState next_raw) s) as [dates s1].
  unfold bind at 1.
  pose proof (replicateM_spec (fun _ => True)
                (choice RandomState next_raw sites)
                (fun _ => I) N s1) as Hsites.
  destruct (replicateM N (choice RandomState next_raw sites) s1)
    as [site_col s2].
  unfold bind at 1.
  pose proof (replicateM_spec (fun _ => True)
                (choice RandomState next_raw species)
                (fun _ => I) N s2) as Hspecies.
  destruct (replicateM N (choice RandomState next_raw species) s2)
    as [species_col s3].
  unfold bind at 1.
  pose proof (replicateM_spec (fun w => 500 <= w <= 15000)
                (uniform_round2 RandomState next_raw 5 150)
                uniform_round2_range N s3) as Hweights.
  destruct (replicateM N (uniform_round2 RandomState next_raw 5 150) s3)
    as [weight_col s4].
  unfold bind at 1.
  pose proof (replicateM_spec (fun _ => True)
                (choice RandomState next_raw gear)
                (fun _ => I) N s4) as Hgear.
  destruct (replicateM N (choice RandomState next_raw gear) s4)
    as [gear_col s5].
  cbn [fst] in *. unfold ret. cbn [fst].
  exists (make_frame dates site_col species_col weight_col gear_col).
  split; [ reflexivity | split ].
  - apply make_frame_length; tauto.
  - apply (make_frame_columns
             (fun d => start_date <= d < start_date + window_days)
             (fun w => 500 <= w <= 15000)); tauto.
Qed.
End GeneratorFacts.

(** C4: for every record count [N] and every state of the random
    source, the generator returns exactly [N] records; every weight is a
    number of hundredths between 5.00 and 150.00 kg; every date is one of
    the 438 days that start on 2024-01-01; and the table is in
    non-decreasing order of date. *)
Theorem generate_sample_data_spec (RandomState : Type)
        (next_raw : RandomState -> Z * RandomState) (N : nat)
        (s : RandomState) :
  let df := fst (generate_sample_data RandomState next_raw N s) in
  List.length df = N
  /\ Forall (fun r => 5 * 100 <= Catch_Weight_kg r <= 150 * 100) df
  /\ Forall (fun r => ymd2ord 2024 1 1 <= Date r < ymd2ord 2024 1 1 + 438) df
  /\ StronglySorted date_le df.
Proof.
  intros df. subst df.
  destruct (generate_sample_data_unsorted RandomState next_raw N s)
    as [raw [-> [Hlen Hall]]].
  assert (Hperm : Permutation (sort_values_by_Date raw) raw)
    by apply sort_by_Permutation.
  split; [ | split; [ | split ] ].
  - rewrite (Permutation_length Hperm). exact Hlen.
  - apply (Permutation_Forall (Permutation_sym Hperm)).
    apply Forall_impl with (2 := Hall). intros r [_ H]. lia.
  - apply (Permutation_Forall (Permutation_sym Hperm)).
    apply Forall_impl with (2 := Hall). intros r [H _].
    change (ymd2ord 2024 1 1) with start_date.
    change 438 with window_days. exact H.
  - apply sort_values_by_Date_sorted.
Qed.

(** C10: every filtered view of the generated table is in non-decreasing
    order of date: the generator sorts the table and the mask keeps the
    order of the rows. *)
Theorem filtered_view_sorted (RandomState : Type)
        (next_raw : RandomState -> Z * RandomState) (N : nat)
        (g : RandomState) (s e : date) (sel : list string) :
  StronglySorted date_le
    (filtered_df (fst (generate_sample_data RandomState next_raw N g)) s e sel).
Proof.
  rewrite filtered_df_filter. apply filter_StronglySorted.
  destruct (generate_sample_data_unsorted RandomState next_raw N g)
    as [raw [-> _]].
  apply sort_values_by_Date_sorted.
Qed.

(** The tables the script works on meet the weight bound that the
    comparison of totals asks for. *)
Lemma generated_weights_nonnegative (RandomState : Type)
      (next_raw : RandomState -> Z * RandomState) (N : nat)
      (g : RandomState) :
  weights_nonnegative (fst (generate_sample_data RandomState next_raw N g)).
Proof.
  destruct (generate_sample_data_unsorted RandomState next_raw N g)
    as [raw [-> [_ Hall]]].
  unfold weights_nonnegative.
  apply (Permutation_Forall
           (Permutation_sym (sort_by_Permutation date_leb raw))).
  apply Forall_impl with (2 := Hall). intros r [_ H]. lia.
Qed.

(** * Further properties of the script *)

(** ** The date bounds and the site options *)

Lemma fold_left_min_spec (l : list Z) (x : Z) :
  fold_left Z.min l x <= x
  /\ Forall (fun y => fold_left Z.min l x <= y) l
  /\ (fold_left Z.min l x = x \/ In (fold_left Z.min l x) l).
Proof.
  revert x. induction l as [| y l IH]; intros x; simpl.
  - split; [ lia | split; [ constructor | left; reflexivity ] ].
  - destruct (IH (Z.min x y)) as [H1 [H2 H3]].
    split; [ lia | split ].
    + constructor; [ lia | exact H2 ].
    + destruct H3 as [H3 | H3]; [ | right; right; exact H3 ].
      rewrite H3. destruct (Z.min_spec x y) as [[_ ->] | [_ ->]]; auto.
Qed.

Lemma fold_left_max_spec (l : list Z) (x : Z) :
  x <= fold_left Z.max l x
  /\ Forall (fun y => y <= fold_left Z.max l x) l
  /\ (fold_left Z.max l x = x \/ In (fold_left Z.max l x) l).
Proof.
  revert x. induction l as [| y l IH]; intros x; simpl.
  - split; [ lia | split; [ constructor | left; reflexivity ] ].
  - destruct (IH (Z.max x y)) as [H1 [H2 H3]].
    split; [ lia | split ].
    + constructor; [ lia | exact H2 ].
    + destruct H3 as [H3 | H3]; [ | right; right; exact H3 ].
      rewrite H3. destruct (Z.max_spec x y) as [[_ ->] | [_ ->]]; auto.
Qed.

Lemma Series_min_spec (col : list Z) (m : Z) :
  Series_min col = Some m -> In m col /\ Forall (fun y => m <= y) col.
Proof.
  destruct col as [| x col]; simpl; [ discriminate | ].
  intros H. injection H as <-.
  destruct (fold_left_min_spec col x) as [H1 [H2 H3]].
  split; [ | constructor; assumption ].
  destruct H3 as [H3 | H3]; [ left; symmetry; exact H3 | right; exact H3 ].
Qed.

Lemma Series_max_spec (col : list Z) (m : Z) :
  Series_max col = Some m -> In m col /\ Forall (fun y => y <= m) col.
Proof.
  destruct col as [| x col]; simpl; [ discriminate | ].
  intros H. injection H as <-.
  destruct (fold_left_max_spec col x) as [H1 [H2 H3]].
  split; [ | constructor; assumption ].
  destruct H3 as [H3 | H3]; [ left; symmetry; exact H3 | right; exact H3 ].
Qed.

Lemma dates_between_bounds (df : DataFrame) (mn mx : date) :
  min_date df = Some mn -> max_date df = Some mx ->
  Forall (fun r => mn <= Date r <= mx) df.
Proof.
  unfold min_date, max_date, column. intros Hmn Hmx.
  apply Series_min_spec in Hmn. apply Series_max_spec in Hmx.
  destruct Hmn as [_ Hmn], Hmx as [_ Hmx].
  rewrite Forall_forall in *. intros r Hr.
  split; [ apply Hmn | apply Hmx ]; apply in_map, Hr.
Qed.

Lemma all_sites_In (df : DataFrame) (site : string) :
  In site (all_sites df) <-> exists r, In r df /\ Site r = site.
Proof.
  unfold all_sites. split.
  - intros H.
    apply (Permutation_in _ (sort_by_Permutation String.leb _)) in H.
    apply (proj1 (unique_In String.eqb String.leb String.eqb_eq _ _)) in H.
    unfold column in H. apply in_map_iff in H.
    destruct H as [r [Hr Hin]]. exists r. auto.
  - intros [r [Hin <-]].
    apply (Permutation_in _
             (Permutation_sym (sort_by_Permutation String.leb _))).
    apply (proj2 (unique_In String.eqb String.leb String.eqb_eq _ _)).
    unfold column. apply in_map, Hin.
Qed.

(** X1: the two bounds of the date widget are dates of the table, and
    every date of the table lies between them. *)
Theorem date_bounds_are_extremes (df : DataFrame) (mn mx : date) :
  min_date df = Some mn -> max_date df = Some mx ->
  (exists r, In r df /\ Date r = mn)
  /\ (exists r, In r df /\ Date r = mx)
  /\ Forall (fun r => mn <= Date r <= mx) df.
Proof.
  intros Hmn Hmx.
  split; [ | split; [ | apply dates_between_bounds; assumption ] ].
  - apply Series_min_spec in Hmn. destruct Hmn as [Hin _].
    unfold column in Hin. apply in_map_iff in Hin.
    destruct Hin as [r [Hr Hin]]. exists r. auto.
  - apply Series_max_spec in Hmx. destruct Hmx as [Hin _].
    unfold column in Hin. apply in_map_iff in Hin.
    destruct Hin as [r [Hr Hin]]. exists r. auto.
Qed.

Lemma date_bounds_are_extremes_witness :
  min_date example_table = Some (ymd2ord 2024 1 1)
  /\ max_date example_table = Some (ymd2ord 2024 2 1)
  /\ ((exists r, In r example_table /\ Date r = ymd2ord 2024 1 1)
      /\ (exists r, In r example_table /\ Date r = ymd2ord 2024 2 1)
      /\ Forall (fun r => ymd2ord 2024 1 1 <= Date r <= ymd2ord 2024 2 1)
                example_table).
Proof.
  split; [ reflexivity | split; [ reflexivity | ] ].
  apply (date_bounds_are_extremes example_table (ymd2ord 2024 1 1)
           (ymd2ord 2024 2 1)); reflexivity.
Defined.

(** X2: the site options have no duplicate, are in ascending order, and
    are exactly the sites that occur in the table. *)
Theorem all_sites_spec (df : DataFrame) :
  NoDup (all_sites df)
  /\ Sorted (leb_rel String.leb) (all_sites df)
  /\ (forall site, In site (all_sites df) <->
                   exists r, In r df /\ Site r = site).
Proof.
  split; [ | split ].
  - unfold all_sites.
    apply (Permutation_NoDup
             (Permutation_sym (sort_by_Permutation String.leb _))).
    apply unique_NoDup, String.eqb_eq.
  - apply sort_by_Sorted, String.leb_total.
  - apply all_sites_In.
Qed.

(** X3: with the widgets at their defaults (the interval from the first
    to the last date of the table, every site selected) the filter keeps
    the whole table. *)
Theorem default_filter_keeps_all (df : DataFrame) (mn mx : date) :
  min_date df = Some mn -> max_date df = Some mx ->
  filtered_df df mn mx (all_sites df) = df.
Proof.
  intros Hmn Hmx. rewrite filtered_df_filter. apply filter_all.
  intros r Hr. apply keep_row_passes. split.
  - pose proof (dates_between_bounds df mn mx Hmn Hmx) as H.
    rewrite Forall_forall in H. apply H, Hr.
  - apply all_sites_In. exists r. auto.
Qed.

Lemma default_filter_keeps_all_witness :
  min_date example_table = Some (ymd2ord 2024 1 1)
  /\ max_date example_table = Some (ymd2ord 2024 2 1)
  /\ filtered_df example_table (ymd2ord 2024 1 1) (ymd2ord 2024 2 1)
                 (all_sites example_table) = example_table.
Proof.
  split; [ reflexivity | split; [ reflexivity | ] ].
  apply (default_filter_keeps_all example_table (ymd2ord 2024 1 1)
           (ymd2ord 2024 2 1)); reflexivity.
Defined.

(** ** The vocabularies of the generator *)

Lemma make_frame_vocabulary (P1 P2 P3 : string -> Prop)
      (dates : list date) (site_col species_col : list string)
      (weight_col : list Z) (gear_col : list string) :
  Forall P1 site_col -> Forall P2 species_col -> Forall P3 gear_col ->
  Forall (fun r => P1 (Site r) /\ P2 (Species r) /\ P3 (Gear_Type r))
         (make_frame dates site_col species_col weight_col gear_col).
Proof.
  revert site_col species_col weight_col gear_col.
  induction dates as [| d dates IH];
    intros [| s site_col] [| sp species_col] [| w weight_col]
           [| g gear_col] H1 H2 H3; simpl; try constructor.
  - simpl. inversion H1; inversion H2; inversion H3. auto.
  - inversion H1; inversion H2; inversion H3. apply IH; assumption.
Qed.

Section GeneratorVocabulary.
Variable RandomState : Type.
Variable next_raw : RandomState -> Z * RandomState.

Lemma generate_sample_data_vocabulary (N : nat) (s : RandomState) :
  Forall in_vocabulary (fst (generate_sample_data RandomState next_raw N s)).
Proof.
  unfold generate_sample_data. unfold bind at 1.
  destruct (replicateM N (draw_date RandomState next_raw) s) as [dates s1].
  unfold bind at 1.
  pose proof (replicateM_spec RandomState (fun x => In x sites)
                (choice RandomState next_raw sites)
                (fun s0 => choice_In RandomState next_raw sites s0
                             ltac:(discriminate)) N s1) as Hsites.
  destruct (replicateM N (choice RandomState next_raw sites) s1)
    as [site_col s2].
  unfold bind at 1.
  pose proof (replicateM_spec RandomState (fun x => In x species)
                (choice RandomState next_raw species)
                (fun s0 => choice_In RandomState next_raw species s0
                             ltac:(discriminate)) N s2) as Hspecies.
  destruct (replicateM N (choice RandomState next_raw species) s2)
    as [species_col s3].
  unfold bind at 1.
  destruct (replicateM N (uniform_round2 RandomState next_raw 5 150) s3)
    as [weight_col s4].
  unfold bind at 1.
  pose proof (replicateM_spec RandomState (fun x => In x gear)
                (choice RandomState next_raw gear)
                (fun s0 => choice_In RandomState next_raw gear s0
                             ltac:(discriminate)) N s4) as Hgear.
  destruct (replicateM N (choice RandomState next_raw gear) s4)
    as [gear_col s5].
  cbn [fst] in *. unfold ret. cbn [fst].
  apply (Permutation_Forall
           (Permutation_sym (sort_by_Permutation date_leb _))).
  apply (make_frame_vocabulary (fun x => In x sites) (fun x => In x species)
           (fun x => In x gear)); tauto.
Qed.

(** Every row of the generated table: vocabulary, weight and date. *)
Lemma generate_sample_data_rows (N : nat) (s : RandomState) :
  Forall (fun r => in_vocabulary r
                   /\ 500 <= Catch_Weight_kg r <= 15000
                   /\ start_date <= Date r < start_date + window_days)
         (fst (generate_sample_data RandomState next_raw N s)).
Proof.
  pose proof (generate_sample_data_vocabulary N s) as Hv.
  destruct (generate_sample_data_unsorted RandomState next_raw N s)
    as [raw [Heq [_ Hall]]].
  rewrite Heq in *.
  apply (Permutation_Forall
           (Permutation_sym (sort_by_Permutation date_leb raw))) in Hall.
  rewrite Forall_forall in *. intros r Hr.
  specialize (Hv r Hr). specialize (Hall r Hr). tauto.
Qed.

Lemma filtered_generated_rows (N : nat) (g : RandomState) (s e : date)
      (sel : list string) :
  Forall (fun r => in_vocabulary r
                   /\ 500 <= Catch_Weight_kg r <= 15000
                   /\ start_date <= Date r < start_date + window_days)
         (filtered_df (fst (generate_sample_data RandomState next_raw N g))
                      s e sel).
Proof.
  rewrite filtered_df_filter.
  pose proof (generate_sample_data_rows N g) as H.
  rewrite Forall_forall in *. intros r Hr.
  apply filter_In in Hr. apply H, Hr.
Qed.
End GeneratorVocabulary.

(** X4: every record of the generated table, and so every record of any
    filtered view of it, has its site, its species and its gear type in
    the fixed lists of the generator. *)
Theorem generated_records_in_vocabulary (RandomState : Type)
        (next_raw : RandomState -> Z * RandomState) (N : nat)
        (g : RandomState) (s e : date) (sel : list string) :
  let df := fst (generate_sample_data RandomState next_raw N g) in
  Forall in_vocabulary df /\ Forall in_vocabulary (filtered_df df s e sel).
Proof.
  intros df. subst df. split.
  - apply generate_sample_data_vocabulary.
  - apply Forall_impl
      with (2 := filtered_generated_rows RandomState next_raw N g s e sel).
    intros r H. tauto.
Qed.

(** ** The rows of the grouped tables *)

Section GroupByRows.
Context {K : Type}.
Variable key_eqb : K -> K -> bool.
Variable key_leb : K -> K -> bool.
Variable key : CatchRecord -> K.
Hypothesis key_eqb_eq : forall a b, key_eqb a b = true <-> a = b.

Lemma group_keys_iff (df : DataFrame) (k : K) :
  In k (group_keys key_eqb key_leb key df) <->
  exists r, In r df /\ key r = k.
Proof.
  unfold group_keys. split.
  - intros H.
    apply (Permutation_in _ (sort_by_Permutation key_leb _)) in H.
    apply (proj1 (unique_In key_eqb key_leb key_eqb_eq _ _)) in H.
    unfold column in H. apply in_map_iff in H.
    destruct H as [r [Hr Hin]]. exists r. auto.
  - intros [r [Hin <-]].
    apply (group_keys_In key_eqb key_leb key key_eqb_eq), Hin.
Qed.

Lemma groupby_sum_In (df : DataFrame) (k : K) (v : Z) :
  In (k, v) (groupby_sum key_eqb key_leb key df) <->
  (exists r, In r df /\ key r = k)
  /\ v = Series_sum (column Catch_Weight_kg (group key_eqb key df k)).
Proof.
  unfold groupby_sum. rewrite in_map_iff, <- group_keys_iff. split.
  - intros [k' [Heq Hin]]. inversion Heq; subst. auto.
  - intros [Hin ->]. exists k. auto.
Qed.

Lemma groupby_sum_NoDup_keys (df : DataFrame) :
  NoDup (map fst (groupby_sum key_eqb key_leb key df)).
Proof.
  rewrite groupby_sum_keys. apply group_keys_NoDup, key_eqb_eq.
Qed.

Lemma groupby_sum_keys_incl (df : DataFrame) (vocabulary : list K) :
  Forall (fun r => In (key r) vocabulary) df ->
  (List.length (groupby_sum key_eqb key_leb key df)
   <= List.length vocabulary)%nat.
Proof.
  intros H. rewrite <- (length_map fst), groupby_sum_keys.
  apply NoDup_incl_length.
  - apply group_keys_NoDup, key_eqb_eq.
  - intros k Hk. apply group_keys_iff in Hk. destruct Hk as [r [Hr <-]].
    rewrite Forall_forall in H. apply H, Hr.
Qed.

Lemma groupby_sum_length_le (df : DataFrame) :
  (List.length (groupby_sum key_eqb key_leb key df) <= List.length df)%nat.
Proof.
  rewrite <- (length_map key df).
  apply groupby_sum_keys_incl.
  rewrite Forall_forall. intros r Hr. apply in_map, Hr.
Qed.

Lemma group_sum_nonnegative (df : DataFrame) (k : K) (c : Z) :
  0 <= c -> Forall (fun r => c <= Catch_Weight_kg r) df ->
  0 <= Series_sum (column Catch_Weight_kg (group key_eqb key df k)).
Proof.
  intros Hc. unfold group, column.
  induction 1 as [| x df Hx Hdf IH]; cbn [filter map].
  - unfold Series_sum. simpl. lia.
  - destruct (key_eqb (key x) k); cbn [map]; [ | exact IH ].
    rewrite Series_sum_cons. lia.
Qed.

Lemma group_sum_lower_bound (df : DataFrame) (k : K) (c : Z) :
  0 <= c -> Forall (fun r => c <= Catch_Weight_kg r) df ->
  (exists r, In r df /\ key r = k) ->
  c <= Series_sum (column Catch_Weight_kg (group key_eqb key df k)).
Proof.
  intros Hc Hall [r [Hin Hk]].
  induction df as [| x df IH]; [ destruct Hin | ].
  inversion Hall as [| ? ? Hx Hdf]; subst.
  pose proof (group_sum_nonnegative df (key r) c Hc Hdf) as Hrest.
  unfold group, column in *. cbn [filter].
  destruct (key_eqb (key x) (key r)) eqn:E.
  - cbn [map]. rewrite Series_sum_cons. lia.
  - destruct Hin as [-> | Hin].
    + rewrite (proj2 (key_eqb_eq (key r) (key r)) eq_refl) in E.
      discriminate.
    + apply IH; assumption.
Qed.
End GroupByRows.

Lemma sort_values_by_weight_desc_In {K : Type} (t : list (K * Z))
      (p : K * Z) :
  In p (sort_values_by_weight_desc t) <-> In p t.
Proof.
  unfold sort_values_by_weight_desc. split; apply Permutation_in.
  - apply sort_by_Permutation.
  - apply Permutation_sym, sort_by_Permutation.
Qed.

Lemma sort_values_by_weight_desc_length {K : Type} (t : list (K * Z)) :
  List.length (sort_values_by_weight_desc t) = List.length t.
Proof.
  apply Permutation_length, sort_by_Permutation.
Qed.

Lemma pair_leb_total (a b : string * string) :
  pair_leb a b = true \/ pair_leb b a = true.
Proof.
  unfold pair_leb. rewrite (String.eqb_sym (fst b) (fst a)).
  destruct (String.eqb (fst a) (fst b)); apply String.leb_total.
Qed.

(** X5: the table by gear type and the table by site and species have
    one row per key that occurs in the filtered table: the keys are
    distinct, in ascending order, and a gear type (a pair of a site and a
    species) has a row exactly when some filtered record has it. *)
Theorem grouped_keys_exact (f : DataFrame) :
  (NoDup (map fst (gear_catch_df f))
   /\ Sorted (leb_rel String.leb) (map fst (gear_catch_df f))
   /\ forall k, In k (map fst (gear_catch_df f)) <->
                exists r, In r f /\ Gear_Type r = k)
  /\ (NoDup (map fst (site_species_df f))
      /\ Sorted (leb_rel pair_leb) (map fst (site_species_df f))
      /\ forall k, In k (map fst (site_species_df f)) <->
                   exists r, In r f /\ (Site r, Species r) = k).
Proof.
  unfold gear_catch_df, site_species_df. rewrite !groupby_sum_keys.
  split; split; [ | split | | split ].
  - apply group_keys_NoDup, String.eqb_eq.
  - apply sort_by_Sorted, String.leb_total.
  - intros k. apply group_keys_iff, String.eqb_eq.
  - apply group_keys_NoDup, pair_eqb_eq.
  - apply sort_by_Sorted, pair_leb_total.
  - intros k.
    apply (group_keys_iff pair_eqb pair_leb (fun r => (Site r, Species r))
             pair_eqb_eq).
Qed.

(** X6: no grouped table has more rows than the filtered table, and the
    filtered table has no more rows than the table. *)
Theorem grouped_tables_row_counts (df : DataFrame) (s e : date)
        (sel : list string) :
  let f := filtered_df df s e sel in
  (num_records_filtered f <= List.length df)%nat
  /\ (List.length (time_series_df f) <= num_records_filtered f)%nat
  /\ (List.length (site_catch_df f) <= num_records_filtered f)%nat
  /\ (List.length (gear_catch_df f) <= num_records_filtered f)%nat
  /\ (List.length (species_catch_df f) <= num_records_filtered f)%nat
  /\ (List.length (site_species_df f) <= num_records_filtered f)%nat.
Proof.
  intros f. unfold num_records_filtered.
  unfold site_catch_df, species_catch_df, time_series_df, gear_catch_df,
    site_species_df.
  rewrite !sort_values_by_weight_desc_length.
  split; [ | repeat split ].
  - subst f. rewrite filtered_df_filter. apply filter_length_le.
  - apply groupby_sum_length_le, Z.eqb_eq.
  - apply groupby_sum_length_le, String.eqb_eq.
  - apply groupby_sum_length_le, String.eqb_eq.
  - apply groupby_sum_length_le, String.eqb_eq.
  - apply groupby_sum_length_le, pair_eqb_eq.
Qed.

Lemma window_dates_In (d : date) :
  start_date <= d < start_date + window_days ->
  In d (map (fun i => start_date + Z.of_nat i)
            (seq 0 (Z.to_nat window_days))).
Proof.
  intros H. apply in_map_iff. exists (Z.to_nat (d - start_date)).
  split; [ lia | ]. apply in_seq. lia.
Qed.

(** X7: on the generated table, whatever the filter, the chart by site
    has at most 5 bars, the chart by species at most 7, the chart by gear
    type at most 5 slices, the stacked chart at most 35 segments and the
    time series at most 438 points. *)
Theorem generated_chart_sizes (RandomState : Type)
        (next_raw : RandomState -> Z * RandomState) (N : nat)
        (g : RandomState) (s e : date) (sel : list string) :
  let f := filtered_df (fst (generate_sample_data RandomState next_raw N g))
                       s e sel in
  (List.length (site_catch_df f) <= 5)%nat
  /\ (List.length (species_catch_df f) <= 7)%nat
  /\ (List.length (gear_catch_df f) <= 5)%nat
  /\ (List.length (site_species_df f) <= 35)%nat
  /\ (List.length (time_series_df f) <= 438)%nat.
Proof.
  intros f.
  pose proof (filtered_generated_rows RandomState next_raw N g s e sel) as H.
  fold f in H. unfold in_vocabulary in H.
  unfold site_catch_df, species_catch_df, time_series_df, gear_catch_df,
    site_species_df.
  rewrite !sort_values_by_weight_desc_length.
  split; [ | split; [ | split; [ | split ] ] ].
  - apply (groupby_sum_keys_incl String.eqb String.leb Site String.eqb_eq
             f sites).
    apply Forall_impl with (2 := H). intros r Hr. tauto.
  - apply (groupby_sum_keys_incl String.eqb String.leb Species String.eqb_eq
             f species).
    apply Forall_impl with (2 := H). intros r Hr. tauto.
  - apply (groupby_sum_keys_incl String.eqb String.leb Gear_Type
             String.eqb_eq f gear).
    apply Forall_impl with (2 := H). intros r Hr. tauto.
  - apply (groupby_sum_keys_incl pair_eqb pair_leb
             (fun r => (Site r, Species r)) pair_eqb_eq f
             (list_prod sites species)).
    apply Forall_impl with (2 := H). intros r Hr.
    apply in_prod; tauto.
  - apply (groupby_sum_keys_incl Z.eqb Z.leb Date Z.eqb_eq f
             (map (fun i => start_date + Z.of_nat i)
                  (seq 0 (Z.to_nat window_days)))).
    apply Forall_impl with (2 := H). intros r Hr.
    apply window_dates_In. tauto.
Qed.

(** X8: on the generated table, whatever the filter, every row of every
    grouped table stands for at least one record: its sum is at least
    5.00 kg. *)
Theorem generated_group_sums_positive (RandomState : Type)
        (next_raw : RandomState -> Z * RandomState) (N : nat)
        (g : RandomState) (s e : date) (sel : list string) :
  let f := filtered_df (fst (generate_sample_data RandomState next_raw N g))
                       s e sel in
  Forall (fun p => 500 <= snd p) (time_series_df f)
  /\ Forall (fun p => 500 <= snd p) (site_catch_df f)
  /\ Forall (fun p => 500 <= snd p) (gear_catch_df f)
  /\ Forall (fun p => 500 <= snd p) (species_catch_df f)
  /\ Forall (fun p => 500 <= snd p) (site_species_df f).
Proof.
  intros f.
  pose proof (filtered_generated_rows RandomState next_raw N g s e sel) as H.
  fold f in H.
  assert (Hw : Forall (fun r => 500 <= Catch_Weight_kg r) f).
  { apply Forall_impl with (2 := H). intros r Hr. tauto. }
  clear H.
  unfold site_catch_df, species_catch_df, time_series_df, gear_catch_df,
    site_species_df.
  repeat split; rewrite Forall_forall; intros [k v] Hin;
    try apply (proj1 (sort_values_by_weight_desc_In _ _)) in Hin; simpl.
  - apply (groupby_sum_In Z.eqb Z.leb Date Z.eqb_eq) in Hin.
    destruct Hin as [Hk ->].
    apply group_sum_lower_bound; [ apply Z.eqb_eq | lia | | ]; assumption.
  - apply (groupby_sum_In String.eqb String.leb Site String.eqb_eq) in Hin.
    destruct Hin as [Hk ->].
    apply group_sum_lower_bound; [ apply String.eqb_eq | lia | | ];
      assumption.
  - apply (groupby_sum_In String.eqb String.leb Gear_Type String.eqb_eq)
      in Hin.
    destruct Hin as [Hk ->].
    apply group_sum_lower_bound; [ apply String.eqb_eq | lia | | ];
      assumption.
  - apply (groupby_sum_In String.eqb String.leb Species String.eqb_eq)
      in Hin.
    destruct Hin as [Hk ->].
    apply group_sum_lower_bound; [ apply String.eqb_eq | lia | | ];
      assumption.
  - apply (groupby_sum_In pair_eqb pair_leb (fun r => (Site r, Species r))
             pair_eqb_eq) in Hin.
    destruct Hin as [Hk ->].
    apply group_sum_lower_bound; [ apply pair_eqb_eq | lia | | ];
      assumption.
Qed.

(** X9: the charts show nothing outside the filter: every point of the
    time series has its date in the chosen interval, and every bar of the
    chart by site is a selected site. *)
Theorem charts_within_filter (df : DataFrame) (s e : date)
        (sel : list string) :
  let f := filtered_df df s e sel in
  Forall (fun p => s <= fst p <= e) (time_series_df f)
  /\ Forall (fun p => In (fst p) sel) (site_catch_df f).
Proof.
  intros f. split; rewrite Forall_forall; intros [k v] Hin; simpl.
  - apply (groupby_sum_In Z.eqb Z.leb Date Z.eqb_eq) in Hin.
    destruct Hin as [[r [Hr <-]] _].
    subst f. rewrite filtered_df_filter in Hr. apply filter_In in Hr.
    destruct Hr as [_ Hr]. apply keep_row_passes in Hr. apply Hr.
  - apply (proj1 (sort_values_by_weight_desc_In _ _)) in Hin.
    apply (groupby_sum_In String.eqb String.leb Site String.eqb_eq) in Hin.
    destruct Hin as [[r [Hr <-]] _].
    subst f. rewrite filtered_df_filter in Hr. apply filter_In in Hr.
    destruct Hr as [_ Hr]. apply keep_row_passes in Hr. apply Hr.
Qed.

(** ** The stacked chart *)

Lemma filter_absorb {A : Type} (p q : A -> bool) (l : list A) :
  (forall x, p x = true -> q x = true) ->
  filter p (filter q l) = filter p l.
Proof.
  intros H. induction l as [| x l IH]; simpl; [ reflexivity | ].
  destruct (q x) eqn:Eq; simpl.
  - rewrite IH. reflexivity.
  - destruct (p x) eqn:Ep; [ | exact IH ].
    apply H in Ep. congruence.
Qed.

Lemma filter_map_commute {A B : Type} (p : B -> bool) (g : A -> B)
      (l : list A) :
  filter p (map g l) = map g (filter (fun x => p (g x)) l).
Proof.
  induction l as [| x l IH]; simpl; [ reflexivity | ].
  destruct (p (g x)); simpl; rewrite IH; reflexivity.
Qed.

Lemma rows_of_site_keys (f : DataFrame) (site : string) :
  map fst (rows_of_site site (site_species_df f))
  = filter (fun k : string * string => String.eqb (fst k) site)
           (group_keys pair_eqb pair_leb (fun r => (Site r, Species r)) f).
Proof.
  unfold rows_of_site, site_species_df, groupby_sum.
  rewrite filter_map_commute, map_map. cbn [fst]. apply map_id.
Qed.

(** X10: in the table by site and species, the rows of one site are the
    species caught at that site, and their groups together hold every
    filtered record of that site once: a record of the site is counted
    in exactly one segment of the site's stack, and in no other
    stack. *)
Theorem stacked_segments_partition_site (f : DataFrame) (site : string) :
  let key := fun r => (Site r, Species r) in
  let ks := map fst (rows_of_site site (site_species_df f)) in
  NoDup ks
  /\ (forall k, In k ks <->
                exists r, In r f /\ Site r = site /\ key r = k)
  /\ Permutation (List.concat (map (group pair_eqb key f) ks))
                 (filter (fun r => String.eqb (Site r) site) f).
Proof.
  intros key ks. subst ks. rewrite rows_of_site_keys. fold key.
  set (ks := filter (fun k : string * string => String.eqb (fst k) site)
                    (group_keys pair_eqb pair_leb key f)).
  set (f' := filter (fun r => String.eqb (Site r) site) f).
  assert (Hnd : NoDup ks).
  { unfold ks. apply NoDup_filter, group_keys_NoDup, pair_eqb_eq. }
  assert (Hks : forall k, In k ks <->
                          exists r, In r f /\ Site r = site /\ key r = k).
  { intros k. unfold ks.
    rewrite filter_In, (group_keys_iff pair_eqb pair_leb key pair_eqb_eq),
      String.eqb_eq.
    split.
    - intros [[r [Hr Hk]] Hs]. exists r. subst k. auto.
    - intros [r [Hr [Hs Hk]]]. subst k. split; [ exists r; auto | exact Hs ]. }
  split; [ exact Hnd | split; [ exact Hks | ] ].
  assert (Hmap : map (group pair_eqb key f') ks
                 = map (group pair_eqb key f) ks).
  { apply map_ext_in. intros k Hk. apply Hks in Hk.
    destruct Hk as [r0 [_ [Hs0 Hk0]]].
    unfold group, f'. apply filter_absorb.
    intros r Hr. apply pair_eqb_eq in Hr.
    apply String.eqb_eq. rewrite <- Hs0.
    change (fst (key r) = fst (key r0)). rewrite Hr, Hk0. reflexivity. }
  rewrite <- Hmap.
  apply perm_trans
    with (1 := groups_concat_Permutation pair_eqb key pair_eqb_eq ks f' Hnd).
  rewrite filter_all; [ apply Permutation_refl | ].
  intros r Hr. apply existsb_exists. exists (key r).
  split; [ | apply pair_eqb_eq; reflexivity ].
  apply Hks. unfold f' in Hr. apply filter_In in Hr.
  destruct Hr as [Hr Hs]. apply String.eqb_eq in Hs. exists r. auto.
Qed.

(** ** Filters combined, widened and emptied *)

Lemma filter_twice {A : Type} (p q : A -> bool) (l : list A) :
  filter p (filter q l) = filter (fun x => q x && p x) l.
Proof.
  induction l as [| x l IH]; simpl; [ reflexivity | ].
  destruct (q x); simpl; [ destruct (p x) | ]; rewrite IH; reflexivity.
Qed.

Lemma both_selected_In (sel1 sel2 : list string) (x : string) :
  In x (both_selected sel1 sel2) <-> In x sel1 /\ In x sel2.
Proof.
  unfold both_selected. rewrite filter_In, existsb_eqb_In. tauto.
Qed.

Lemma keep_row_both (s1 e1 s2 e2 : date) (sel1 sel2 : list string)
      (r : CatchRecord) :
  keep_row (Z.max s1 s2) (Z.min e1 e2) (both_selected sel1 sel2) r
  = keep_row s1 e1 sel1 r && keep_row s2 e2 sel2 r.
Proof.
  apply Bool.eq_iff_eq_true.
  rewrite andb_true_iff, !keep_row_passes. unfold passes.
  rewrite both_selected_In. intuition lia.
Qed.

(** X11: one filter after another is the filter by the common interval
    and the common sites, and the order of the two does not matter. *)
Theorem filters_compose (df : DataFrame) (s1 e1 s2 e2 : date)
        (sel1 sel2 : list string) :
  filtered_df (filtered_df df s1 e1 sel1) s2 e2 sel2
  = filtered_df df (Z.max s1 s2) (Z.min e1 e2) (both_selected sel1 sel2)
  /\ filtered_df (filtered_df df s1 e1 sel1) s2 e2 sel2
     = filtered_df (filtered_df df s2 e2 sel2) s1 e1 sel1.
Proof.
  rewrite !filtered_df_filter, !filter_twice. split.
  - apply filter_ext. intros r. symmetry. apply keep_row_both.
  - apply filter_ext. intros r. apply andb_comm.
Qed.

Lemma keep_row_widen (s e s' e' : date) (sel sel' : list string)
      (r : CatchRecord) :
  s' <= s -> e <= e' -> incl sel sel' ->
  keep_row s e sel r = true -> keep_row s' e' sel' r = true.
Proof.
  intros Hs He Hsel. rewrite !keep_row_passes. unfold passes.
  intros [Hd Hin]. split; [ lia | apply Hsel, Hin ].
Qed.

(** X12: widening the interval or selecting more sites only adds
    records: the narrower view is a subsequence of the wider one, and,
    when no weight is negative, its total catch is not larger. *)
Theorem filter_monotone (df : DataFrame) (s e s' e' : date)
        (sel sel' : list string) :
  s' <= s -> e <= e' -> incl sel sel' ->
  subsequence (filtered_df df s e sel) (filtered_df df s' e' sel')
  /\ (weights_nonnegative df ->
      total_catch (filtered_df df s e sel)
      <= total_catch (filtered_df df s' e' sel')).
Proof.
  intros Hs He Hsel. rewrite !filtered_df_filter.
  rewrite <- (filter_absorb (keep_row s e sel) (keep_row s' e' sel') df)
    by (intros r; apply keep_row_widen; assumption).
  split.
  - apply filter_subsequence.
  - intros Hw. apply total_catch_filter_le.
    unfold weights_nonnegative in *. rewrite Forall_forall in *.
    intros r Hr. apply filter_In in Hr. apply Hw, Hr.
Qed.

Lemma filter_monotone_witness :
  ymd2ord 2024 1 1 <= ymd2ord 2024 1 2
  /\ ymd2ord 2024 1 31 <= ymd2ord 2024 2 1
  /\ incl ["Fumba Bay"] ["Fumba Bay"; "Nungwi Reef"]
  /\ (subsequence
        (filtered_df example_table (ymd2ord 2024 1 2) (ymd2ord 2024 1 31)
                     ["Fumba Bay"])
        (filtered_df example_table (ymd2ord 2024 1 1) (ymd2ord 2024 2 1)
                     ["Fumba Bay"; "Nungwi Reef"])
      /\ (weights_nonnegative example_table ->
          total_catch
            (filtered_df example_table (ymd2ord 2024 1 2) (ymd2ord 2024 1 31)
                         ["Fumba Bay"])
          <= total_catch
               (filtered_df example_table (ymd2ord 2024 1 1)
                            (ymd2ord 2024 2 1) ["Fumba Bay"; "Nungwi Reef"]))).
Proof.
  assert (H1 : ymd2ord 2024 1 1 <= ymd2ord 2024 1 2) by (vm_compute; discriminate).
  assert (H2 : ymd2ord 2024 1 31 <= ymd2ord 2024 2 1) by (vm_compute; discriminate).
  assert (H3 : incl ["Fumba Bay"] ["Fumba Bay"; "Nungwi Reef"]).
  { intros x [<- | []]. left. reflexivity. }
  split; [ exact H1 | split; [ exact H2 | split; [ exact H3 | ] ] ].
  apply (filter_monotone example_table (ymd2ord 2024 1 2) (ymd2ord 2024 1 31)
           (ymd2ord 2024 1 1) (ymd2ord 2024 2 1) ["Fumba Bay"]
           ["Fumba Bay"; "Nungwi Reef"] H1 H2 H3).
Defined.

(** X13: an interval whose end is before its start, or a selection that
    names no site of the table, leaves no record: the page is then the
    fallback preview. *)
Theorem nothing_passes_falls_back (df : DataFrame) (s e : date)
        (sel : list string) :
  e < s \/ (forall site, In site sel -> ~ In site (all_sites df)) ->
  filtered_df df s e sel = []
  /\ main_page df s e sel = fallback_page df s e sel.
Proof.
  intros H.
  assert (Hempty : filtered_df df s e sel = []).
  { rewrite filtered_df_filter. apply filter_none. intros r Hr.
    destruct (keep_row s e sel r) eqn:E; [ | reflexivity ].
    apply keep_row_passes in E. destruct E as [Hd Hsite].
    destruct H as [H | H]; [ lia | ].
    exfalso. apply (H (Site r) Hsite). apply all_sites_In. exists r. auto. }
  split; [ exact Hempty | apply main_page_empty, Hempty ].
Qed.

Lemma nothing_passes_falls_back_witness :
  (ymd2ord 2024 1 1 < ymd2ord 2024 1 31
   \/ (forall site, In site ["Fumba Bay"] ->
                    ~ In site (all_sites example_table)))
  /\ (filtered_df example_table (ymd2ord 2024 1 31) (ymd2ord 2024 1 1)
                  ["Fumba Bay"] = []
      /\ main_page example_table (ymd2ord 2024 1 31) (ymd2ord 2024 1 1)
                   ["Fumba Bay"]
         = fallback_page example_table (ymd2ord 2024 1 31) (ymd2ord 2024 1 1)
                         ["Fumba Bay"]).
Proof.
  assert (H : ymd2ord 2024 1 1 < ymd2ord 2024 1 31
              \/ (forall site, In site ["Fumba Bay"] ->
                               ~ In site (all_sites example_table))).
  { left. vm_compute. reflexivity. }
  split; [ exact H | ].
  apply (nothing_passes_falls_back example_table (ymd2ord 2024 1 31)
           (ymd2ord 2024 1 1) ["Fumba Bay"] H).
Defined.

(** ** The two guards of the page *)

(** X14: the warning is on the page exactly when the filtered table is
    empty, and a metric or a chart exactly when it is not; the one table
    on the page is the filtered table, or the preview when that is
    empty. *)
Theorem page_guards_agree (df : DataFrame) (s e : date) (sel : list string) :
  let f := filtered_df df s e sel in
  let page := main_page df s e sel in
  ((exists text, In (warning text) page) <-> f = [])
  /\ ((exists x, In x page /\ shows_aggregate x) <-> f <> [])
  /\ (forall rows, In (dataframe rows) page ->
                   (f <> [] /\ rows = f) \/ (f = [] /\ rows = head 100 df)).
Proof.
  intros f page. subst page. unfold main_page. fold f.
  unfold metrics_section, visualizations_section.
  destruct f as [| r f']; cbn [empty negb app In].
  - split; [ | split ].
    + split; [ reflexivity | ]. intros _. eexists. right. right. right.
      left. reflexivity.
    + split; [ | intros H; contradiction ].
      intros [x [Hin Hs]].
      repeat (destruct Hin as [<- | Hin]; [ destruct Hs | ]). destruct Hin.
    + intros rows Hin. right. split; [ reflexivity | ].
      repeat (destruct Hin as [Hin | Hin]; [ try discriminate Hin | ]).
      * inversion Hin. reflexivity.
      * destruct Hin.
  - split; [ | split ].
    + split; [ | discriminate ].
      intros [text Hin].
      repeat (destruct Hin as [Hin | Hin]; [ discriminate Hin | ]).
      destruct Hin.
    + split; [ discriminate | ]. intros _.
      eexists. split; [ right; right; right; left; reflexivity | exact I ].
    + intros rows Hin. left. split; [ discriminate | ].
      repeat (destruct Hin as [Hin | Hin]; [ try discriminate Hin | ]).
      * inversion Hin. reflexivity.
      * destruct Hin.
Qed.

(** ** The generated table on the page *)

Lemma StronglySorted_app_between {A : Type} (R : A -> A -> Prop)
      (l1 l2 : list A) :
  StronglySorted R (l1 ++ l2) ->
  forall x y, In x l1 -> In y l2 -> R x y.
Proof.
  induction l1 as [| a l1 IH]; simpl; intros Hs x y Hx Hy; [ destruct Hx | ].
  inversion Hs as [| ? ? Hs' Hall]; subst.
  destruct Hx as [<- | Hx].
  - rewrite Forall_forall in Hall. apply Hall, in_or_app. right. exact Hy.
  - apply IH; assumption.
Qed.

Lemma Series_sum_bounds (lo hi : Z) (l : list Z) :
  Forall (fun w => lo <= w <= hi) l ->
  lo * Z.of_nat (List.length l) <= Series_sum l
  <= hi * Z.of_nat (List.length l).
Proof.
  induction 1 as [| w l Hw Hl IH].
  - unfold Series_sum. simpl. lia.
  - rewrite Series_sum_cons. cbn [List.length]. lia.
Qed.

Lemma Zpos_of_nat_succ (n : nat) : Z.pos (Pos.of_nat (S n)) = Z.of_nat (S n).
Proof.
  rewrite <- Pos.of_nat_succ, Zpos_P_of_succ_nat, Nat2Z.inj_succ. reflexivity.
Qed.

Lemma Series_mean_bounds (lo hi : Z) (l : list Z) :
  l <> [] -> Forall (fun w => lo <= w <= hi) l ->
  exists q, Series_mean l = Some q
            /\ (inject_Z lo <= q)%Q /\ (q <= inject_Z hi)%Q
            /\ (q * inject_Z (Z.of_nat (List.length l))
                == inject_Z (Series_sum l))%Q.
Proof.
  intros Hne Hall. destruct l as [| w l]; [ contradiction | ].
  pose proof (Series_sum_bounds lo hi (w :: l) Hall) as Hb.
  unfold Series_mean. eexists. split; [ reflexivity | ].
  set (total := Series_sum (w :: l)) in *.
  cbn [List.length] in *. 
  pose proof (Zpos_of_nat_succ (List.length l)) as Hp.
  set (n := S (List.length l)) in *.
  unfold Qle, Qeq, Qmult, inject_Z. cbn [Qnum Qden].
  rewrite !Pos.mul_1_r, !Z.mul_1_r, Hp.
  repeat split; lia.
Qed.

Section GeneratedPage.
Variable RandomState : Type.
Variable next_raw : RandomState -> Z * RandomState.

Lemma generate_sample_data_length (N : nat) (g : RandomState) :
  List.length (fst (generate_sample_data RandomState next_raw N g)) = N.
Proof.
  destruct (generate_sample_data_unsorted RandomState next_raw N g)
    as [raw [-> [Hlen _]]].
  rewrite <- Hlen. apply Permutation_length, sort_by_Permutation.
Qed.

Lemma generate_sample_data_sorted (N : nat) (g : RandomState) :
  StronglySorted date_le (fst (generate_sample_data RandomState next_raw N g)).
Proof.
  destruct (generate_sample_data_unsorted RandomState next_raw N g)
    as [raw [-> _]].
  apply sort_values_by_Date_sorted.
Qed.
End GeneratedPage.

(** X15: for a generated table of at least one record the two bounds of
    the date widget exist and lie in the window of the generator, and the
    script makes its page whatever the date widget and the site widget
    hand over. *)
Theorem generated_table_has_page (RandomState : Type)
        (next_raw : RandomState -> Z * RandomState) (n : nat)
        (g : RandomState) (date_range : list date) (sel : list string) :
  let df := fst (generate_sample_data RandomState next_raw (S n) g) in
  exists mn mx,
    min_date df = Some mn /\ max_date df = Some mx
    /\ start_date <= mn /\ mn <= mx /\ mx < start_date + window_days
    /\ script df date_range sel
       = Some (main_page df (fst (resolve_date_range mn mx date_range))
                         (snd (resolve_date_range mn mx date_range)) sel).
Proof.
  intros df.
  pose proof (generate_sample_data_length RandomState next_raw (S n) g)
    as Hlen.
  pose proof (generate_sample_data_rows RandomState next_raw (S n) g)
    as Hrows.
  fold df in Hlen, Hrows.
  destruct (min_date df) as [mn |] eqn:Hmn;
    [ | destruct df; [ discriminate Hlen | discriminate Hmn ] ].
  destruct (max_date df) as [mx |] eqn:Hmx;
    [ | destruct df; [ discriminate Hlen | discriminate Hmx ] ].
  exists mn, mx.
  assert (Hin : exists r1 r2, In r1 df /\ In r2 df
                              /\ Date r1 = mn /\ Date r2 = mx).
  { unfold min_date, max_date, column in Hmn, Hmx.
    apply Series_min_spec in Hmn. apply Series_max_spec in Hmx.
    destruct Hmn as [Hmn _], Hmx as [Hmx _].
    apply in_map_iff in Hmn. apply in_map_iff in Hmx.
    destruct Hmn as [r1 [? ?]], Hmx as [r2 [? ?]]. exists r1, r2. auto. }
  destruct Hin as [r1 [r2 [H1 [H2 [E1 E2]]]]].
  pose proof (dates_between_bounds df mn mx Hmn Hmx) as Hb.
  rewrite Forall_forall in Hrows, Hb.
  pose proof (Hrows r1 H1). pose proof (Hrows r2 H2). pose proof (Hb r1 H1).
  split; [ reflexivity | split; [ reflexivity | ] ].
  split; [ lia | split; [ lia | split; [ lia | ] ] ].
  unfold script. unfold min_date in Hmn. unfold max_date in Hmx.
  rewrite Hmn, Hmx.
  destruct (resolve_date_range mn mx date_range). reflexivity.
Qed.

(** X16: the fallback preview of a generated table holds its
    min(100, N) earliest records: no record left out of the preview is
    dated before a record shown in it. *)
Theorem preview_is_earliest (RandomState : Type)
        (next_raw : RandomState -> Z * RandomState) (N : nat)
        (g : RandomState) :
  let df := fst (generate_sample_data RandomState next_raw N g) in
  List.length (head 100 df) = Nat.min 100 N
  /\ (forall r1 r2, In r1 (head 100 df) -> In r2 (skipn 100 df) ->
                    Date r1 <= Date r2).
Proof.
  intros df. unfold head. split.
  - rewrite length_firstn. subst df.
    rewrite generate_sample_data_length. reflexivity.
  - apply (StronglySorted_app_between date_le).
    rewrite firstn_skipn. apply generate_sample_data_sorted.
Qed.

(** X17: on the generated table, whatever the filter, the mean catch per
    record of a non-empty filtered table is a number, and it lies between
    5.00 and 150.00 kg. *)
Theorem generated_mean_within_weights (RandomState : Type)
        (next_raw : RandomState -> Z * RandomState) (N : nat)
        (g : RandomState) (s e : date) (sel : list string) :
  let f := filtered_df (fst (generate_sample_data RandomState next_raw N g))
                       s e sel in
  f <> [] ->
  exists q, avg_catch_per_record f = Some q
            /\ (inject_Z 500 <= q)%Q /\ (q <= inject_Z 15000)%Q.
Proof.
  intros f Hne.
  pose proof (filtered_generated_rows RandomState next_raw N g s e sel) as H.
  fold f in H.
  unfold avg_catch_per_record.
  destruct (Series_mean_bounds 500 15000 (column Catch_Weight_kg f))
    as [q [Hq [Hlo [Hhi _]]]].
  - unfold column. destruct f; [ contradiction | discriminate ].
  - unfold column. apply Forall_map.
    apply Forall_impl with (2 := H). intros r Hr. tauto.
  - exists q. auto.
Qed.

Lemma generated_mean_within_weights_witness :
  let f := filtered_df (fst (generate_sample_data Z lcg_next 4 42))
                       start_date (start_date + 437) sites in
  f <> []
  /\ exists q, avg_catch_per_record f = Some q
               /\ (inject_Z 500 <= q)%Q /\ (q <= inject_Z 15000)%Q.
Proof.
  assert (H : filtered_df (fst (generate_sample_data Z lcg_next 4 42))
                          start_date (start_date + 437) sites <> []).
  { vm_compute. discriminate. }
  split; [ exact H | ].
  apply (generated_mean_within_weights Z lcg_next 4 42 start_date
           (start_date + 437) sites H).
Defined.

(** ** What the filter looks at *)

(** X18: of the selection only the sites that occur in the table count:
    two selections that agree on those sites, in whatever order and with
    whatever repetitions, give the same filtered table. *)
Theorem selection_as_set (df : DataFrame) (s e : date)
        (sel sel' : list string) :
  (forall site, In site (all_sites df) -> (In site sel <-> In site sel')) ->
  filtered_df df s e sel = filtered_df df s e sel'.
Proof.
  intros H. rewrite !filtered_df_filter.
  apply filter_ext_in. intros r Hr.
  apply Bool.eq_iff_eq_true. rewrite !keep_row_passes. unfold passes.
  assert (Hs : In (Site r) (all_sites df))
    by (apply all_sites_In; exists r; auto).
  specialize (H (Site r) Hs). tauto.
Qed.

Lemma selection_as_set_witness :
  (forall site, In site (all_sites example_table) ->
                (In site ["Fumba Bay"; "Paje Kelp Beds"] <->
                 In site ["Fumba Bay"; "Fumba Bay"]))
  /\ filtered_df example_table (ymd2ord 2024 1 1) (ymd2ord 2024 2 1)
                 ["Fumba Bay"; "Paje Kelp Beds"]
     = filtered_df example_table (ymd2ord 2024 1 1) (ymd2ord 2024 2 1)
                   ["Fumba Bay"; "Fumba Bay"].
Proof.
  assert (H : forall site, In site (all_sites example_table) ->
                (In site ["Fumba Bay"; "Paje Kelp Beds"] <->
                 In site ["Fumba Bay"; "Fumba Bay"])).
  { intros site Hs. vm_compute in Hs.
    destruct Hs as [<- | [<- | []]]; simpl; split; intros Hin.
    - left. reflexivity.
    - left. reflexivity.
    - destruct Hin as [Hin | [Hin | []]]; discriminate Hin.
    - destruct Hin as [Hin | [Hin | []]]; discriminate Hin. }
  split; [ exact H | ].
  apply (selection_as_set example_table (ymd2ord 2024 1 1) (ymd2ord 2024 2 1)
           ["Fumba Bay"; "Paje Kelp Beds"] ["Fumba Bay"; "Fumba Bay"] H).
Defined.

(** X19: when the date widget hands over anything but two dates, the
    page is the one of the full interval, and its filtered table holds
    every record of the selected sites, whatever its date. *)
Theorem incomplete_interval_filters_by_site_only (df : DataFrame)
        (mn mx : date) (date_range : list date) (sel : list string) :
  min_date df = Some mn -> max_date df = Some mx ->
  List.length date_range <> 2%nat ->
  script df date_range sel = Some (main_page df mn mx sel)
  /\ filtered_df df mn mx sel
     = filter (fun r => existsb (String.eqb (Site r)) sel) df.
Proof.
  intros Hmn Hmx Hlen. split.
  - unfold script. unfold min_date in Hmn. unfold max_date in Hmx.
    rewrite Hmn, Hmx, (resolve_date_range_not_two mn mx date_range Hlen).
    reflexivity.
  - rewrite filtered_df_filter. apply filter_ext_in. intros r Hr.
    pose proof (dates_between_bounds df mn mx Hmn Hmx) as Hb.
    rewrite Forall_forall in Hb. specialize (Hb r Hr).
    unfold keep_row.
    rewrite (proj2 (Z.leb_le mn (Date r))) by lia.
    rewrite (proj2 (Z.leb_le (Date r) mx)) by lia.
    reflexivity.
Qed.

Lemma incomplete_interval_filters_by_site_only_witness :
  min_date example_table = Some (ymd2ord 2024 1 1)
  /\ max_date example_table = Some (ymd2ord 2024 2 1)
  /\ List.length [ymd2ord 2024 1 15] <> 2%nat
  /\ (script example_table [ymd2ord 2024 1 15] ["Nungwi Reef"]
      = Some (main_page example_table (ymd2ord 2024 1 1) (ymd2ord 2024 2 1)
                        ["Nungwi Reef"])
      /\ filtered_df example_table (ymd2ord 2024 1 1) (ymd2ord 2024 2 1)
                     ["Nungwi Reef"]
         = filter (fun r => existsb (String.eqb (Site r)) ["Nungwi Reef"])
                  example_table).
Proof.
  assert (H : List.length [ymd2ord 2024 1 15] <> 2%nat) by discriminate.
  split; [ reflexivity | split; [ reflexivity | split; [ exact H | ] ] ].
  apply (incomplete_interval_filters_by_site_only example_table
           (ymd2ord 2024 1 1) (ymd2ord 2024 2 1) [ymd2ord 2024 1 15]
           ["Nungwi Reef"] eq_refl eq_refl H).
Defined.

(** ** The order and the rows of the grouped tables *)

Section SortedGroupedTable.
Context {K : Type}.
Variable key_eqb : K -> K -> bool.
Variable key_leb : K -> K -> bool.
Variable key : CatchRecord -> K.
Hypothesis key_eqb_eq : forall a b, key_eqb a b = true <-> a = b.

Lemma sorted_groupby_Permutation (f : DataFrame) :
  Permutation (sort_values_by_weight_desc (groupby_sum key_eqb key_leb key f))
              (groupby_sum key_eqb key_leb key f).
Proof. apply sort_by_Permutation. Qed.

Lemma sorted_groupby_NoDup (f : DataFrame) :
  NoDup (map fst (sort_values_by_weight_desc
                    (groupby_sum key_eqb key_leb key f))).
Proof.
  apply (Permutation_NoDup
           (Permutation_sym
              (Permutation_map fst (sorted_groupby_Permutation f)))).
  apply groupby_sum_NoDup_keys, key_eqb_eq.
Qed.

Lemma sorted_groupby_keys (f : DataFrame) (k : K) :
  In k (map fst (sort_values_by_weight_desc
                   (groupby_sum key_eqb key_leb key f)))
  <-> exists r, In r f /\ key r = k.
Proof.
  rewrite <- (group_keys_iff key_eqb key_leb key key_eqb_eq),
    <- groupby_sum_keys.
  split; apply Permutation_in, Permutation_map.
  - apply sorted_groupby_Permutation.
  - apply Permutation_sym, sorted_groupby_Permutation.
Qed.
End SortedGroupedTable.

(** C9: the table grouped by date has exactly one row for every date of
    the filtered table, in increasing order of date; the tables grouped
    by site and by species are the rows of the grouped sums, one for
    every site (species) of the filtered table and no other, in
    decreasing order of the summed weight.  None of them is empty when
    the filtered table is not. *)
Theorem grouped_outputs_ordered (df : DataFrame) (s e : date)
        (sel : list string) :
  let f := filtered_df df s e sel in
  (StronglySorted (fun a b => fst a < fst b) (time_series_df f)
   /\ (forall d, In d (map fst (time_series_df f)) <->
                 exists r, In r f /\ Date r = d))
  /\ (StronglySorted (fun a b => snd a >= snd b) (site_catch_df f)
      /\ Permutation (site_catch_df f)
                     (groupby_sum String.eqb String.leb Site f)
      /\ NoDup (map fst (site_catch_df f))
      /\ (forall k, In k (map fst (site_catch_df f)) <->
                    exists r, In r f /\ Site r = k))
  /\ (StronglySorted (fun a b => snd a >= snd b) (species_catch_df f)
      /\ Permutation (species_catch_df f)
                     (groupby_sum String.eqb String.leb Species f)
      /\ NoDup (map fst (species_catch_df f))
      /\ (forall k, In k (map fst (species_catch_df f)) <->
                    exists r, In r f /\ Species r = k))
  /\ (f <> [] ->
      time_series_df f <> [] /\ site_catch_df f <> []
      /\ species_catch_df f <> []).
Proof.
  intros f.
  assert (Hts : forall d, In d (map fst (time_series_df f)) <->
                          exists r, In r f /\ Date r = d).
  { intros d. unfold time_series_df. rewrite groupby_sum_keys.
    apply group_keys_iff, Z.eqb_eq. }
  assert (Hsite : forall k, In k (map fst (site_catch_df f)) <->
                            exists r, In r f /\ Site r = k).
  { intros k. apply sorted_groupby_keys, String.eqb_eq. }
  assert (Hspecies : forall k, In k (map fst (species_catch_df f)) <->
                               exists r, In r f /\ Species r = k).
  { intros k. apply sorted_groupby_keys, String.eqb_eq. }
  split; [ split | split; [ | split ] ].
  - unfold time_series_df, groupby_sum.
    apply StronglySorted_map with (R := Z.lt).
    + intros a b H. exact H.
    + apply group_keys_dates_increasing.
  - exact Hts.
  - split; [ apply sort_values_by_weight_desc_sorted | ].
    split; [ apply sorted_groupby_Permutation | ].
    split; [ apply sorted_groupby_NoDup, String.eqb_eq | exact Hsite ].
  - split; [ apply sort_values_by_weight_desc_sorted | ].
    split; [ apply sorted_groupby_Permutation | ].
    split; [ apply sorted_groupby_NoDup, String.eqb_eq | exact Hspecies ].
  - intros Hne. destruct f as [| r f'] eqn:Ef; [ contradiction | ].
    rewrite <- Ef in *.
    assert (Hr : In r f) by (rewrite Ef; left; reflexivity).
    split; [ | split ]; intros Hempty.
    + assert (H : In (Date r) (map fst (time_series_df f)))
        by (apply Hts; exists r; auto).
      rewrite Hempty in H. destruct H.
    + assert (H : In (Site r) (map fst (site_catch_df f)))
        by (apply Hsite; exists r; auto).
      rewrite Hempty in H. destruct H.
    + assert (H : In (Species r) (map fst (species_catch_df f)))
        by (apply Hspecies; exists r; auto).
      rewrite Hempty in H. destruct H.
Qed.

